(** * Heading refinement and outline structuring of [predict.py]

    A shallow embedding of the post-classification layer of the PDF outline
    extractor: [apply_advanced_rules] (the heading rule engine),
    [structure_final_output] (the outline structurer) and the per-block loop
    of [predict_outline] (document median font, sequential heading context).

    Conventions of the embedding.
    - A Python [str] is a [string]; a character is its code point, and the
      model covers the code points 0..255 (Latin-1), with Python's Unicode
      character classes restricted to that range.
    - Python numbers ([int] and [float]) are rationals [Q]; a decimal
      literal such as [0.9] is the rational 9/10.  Rounding of binary
      floating point is not modelled.
    - A block is a [dict]; the keys the code reads are record fields, of
      type [option] when the code can meet a block without the key.
    - A raised exception is a value of [result]. *)

From Stdlib Require Import List String Ascii Bool Arith ZArith QArith Qabs Lia.
From Stdlib Require Import Permutation Sorted Lqa.
Import ListNotations.

Local Open Scope string_scope.
Local Open Scope bool_scope.

(* ------------------------------------------------------------------ *)
(** ** Characters and strings as Python sees them *)

Module PyStr.

Definition code (c : ascii) : nat := nat_of_ascii c.

Definition in_range (lo hi n : nat) : bool := (lo <=? n)%nat && (n <=? hi)%nat.

(** [str.isspace], the class [\s] of [re], and what [strip] and [split]
    remove: TAB..CR, FS..US, SPACE, NEL and NBSP. *)
Definition is_space (c : ascii) : bool :=
  let n := code c in
  in_range 9 13 n || in_range 28 32 n || (n =? 133)%nat || (n =? 160)%nat.

(** The class [\d]: decimal digits (category Nd). *)
Definition is_digit (c : ascii) : bool := in_range 48 57 (code c).

(** Characters with the Uppercase property. *)
Definition is_upper (c : ascii) : bool :=
  let n := code c in
  in_range 65 90 n || in_range 192 214 n || in_range 216 222 n.

(** Characters with the Lowercase property (this includes the ordinal
    indicators and the micro sign). *)
Definition is_lower (c : ascii) : bool :=
  let n := code c in
  in_range 97 122 n || (n =? 170)%nat || (n =? 181)%nat || (n =? 186)%nat
  || in_range 223 246 n || in_range 248 255 n.

Definition is_alpha (c : ascii) : bool := is_upper c || is_lower c.

(** Digits in the wide sense of [str.isalnum]: decimal digits, superscript
    digits and the vulgar fractions. *)
Definition is_numeric (c : ascii) : bool :=
  let n := code c in
  is_digit c || (n =? 178)%nat || (n =? 179)%nat || (n =? 185)%nat
  || in_range 188 190 n.

(** The class [\w]: alphanumeric or underscore. *)
Definition is_word (c : ascii) : bool :=
  is_alpha c || is_numeric c || (code c =? 95)%nat.

(** One character of [str.lower]. *)
Definition to_lower (c : ascii) : ascii :=
  if is_upper c then ascii_of_nat (code c + 32) else c.

Fixpoint lower (s : string) : string :=
  match s with
  | EmptyString => EmptyString
  | String c s' => String (to_lower c) (lower s')
  end.

Definition is_empty (s : string) : bool :=
  match s with EmptyString => true | String _ _ => false end.

(** Removal of the leading and of the trailing characters of a class. *)
Fixpoint lstrip_by (p : ascii -> bool) (s : string) : string :=
  match s with
  | EmptyString => EmptyString
  | String c s' => if p c then lstrip_by p s' else s
  end.

Fixpoint rstrip_by (p : ascii -> bool) (s : string) : string :=
  match s with
  | EmptyString => EmptyString
  | String c s' =>
      let r := rstrip_by p s' in
      if p c && is_empty r then EmptyString else String c r
  end.

(** [s.strip()] *)
Definition strip (s : string) : string :=
  rstrip_by is_space (lstrip_by is_space s).

(** [s.split()]: the maximal runs of non-whitespace characters. *)
Fixpoint split_from (cur : string) (s : string) : list string :=
  match s with
  | EmptyString => if is_empty cur then [] else [cur]
  | String c s' =>
      if is_space c
      then (if is_empty cur then split_from "" s' else cur :: split_from "" s')
      else split_from (cur ++ String c "") s'
  end.

Definition split (s : string) : list string := split_from "" s.

(** [s.startswith(p)] *)
Definition startswith (p s : string) : bool := String.prefix p s.

Fixpoint last_char (s : string) : option ascii :=
  match s with
  | EmptyString => None
  | String c EmptyString => Some c
  | String _ s' => last_char s'
  end.

(** [s.endswith((c1, c2, ...))] for one-character suffixes. *)
Definition endswith_any (cs : list ascii) (s : string) : bool :=
  match last_char s with
  | Some c => existsb (Ascii.eqb c) cs
  | None => false
  end.

(** [s[1:]] *)
Definition tail (s : string) : string :=
  match s with EmptyString => EmptyString | String _ s' => s' end.

(** [str.istitle]: upper-case characters only after uncased ones, lower-case
    characters only after cased ones, and at least one cased character. *)
Fixpoint istitle_from (previous_is_cased cased : bool) (s : string) : bool :=
  match s with
  | EmptyString => cased
  | String c s' =>
      if is_upper c then
        if previous_is_cased then false else istitle_from true true s'
      else if is_lower c then
        if previous_is_cased then istitle_from true true s' else false
      else istitle_from false cased s'
  end.

Definition istitle (s : string) : bool := istitle_from false false s.

(** [str.isupper]: no lower-case character and at least one upper-case one. *)
Fixpoint isupper_from (cased : bool) (s : string) : bool :=
  match s with
  | EmptyString => cased
  | String c s' =>
      if is_lower c then false
      else isupper_from (cased || is_upper c) s'
  end.

Definition isupper (s : string) : bool := isupper_from false s.

(** The states of the scanner behind [int(s)] once whitespace and sign are
    gone: digits, with single underscores allowed between two digits. *)
Inductive int_state := AtStart | AfterDigit | AfterUnderscore.

Fixpoint int_digits (st : int_state) (acc : Z) (s : string) : option Z :=
  match s with
  | EmptyString =>
      match st with AfterDigit => Some acc | _ => None end
  | String c s' =>
      if is_digit c then
        int_digits AfterDigit (10 * acc + Z.of_nat (code c - 48)) s'
      else if (code c =? 95)%nat then
        match st with
        | AfterDigit => int_digits AfterUnderscore acc s'
        | _ => None
        end
      else None
  end.

(** The whitespace [int] accepts around a number: that of [str.isspace]
    without the separators FS..US. *)
Definition is_int_space (c : ascii) : bool :=
  let n := code c in
  in_range 9 13 n || (n =? 32)%nat || (n =? 133)%nat || (n =? 160)%nat.

(** [int(s)] in base ten; [None] stands for [ValueError]. *)
Definition int (s : string) : option Z :=
  match rstrip_by is_int_space (lstrip_by is_int_space s) with
  | String "+" s' => int_digits AtStart 0 s'
  | String "-" s' => option_map Z.opp (int_digits AtStart 0 s')
  | s' => int_digits AtStart 0 s'
  end.

End PyStr.

(* ------------------------------------------------------------------ *)
(** ** Regular expressions of the [re] module *)

Module Re.

(** The fragment the program uses: character classes, concatenation,
    alternation and repetition.  No pattern of the program has a group
    reference or a look-around, so a match is a membership in the pattern's
    language. *)
Inductive regex : Type :=
| Void : regex
| Eps : regex
| Cls (p : ascii -> bool) : regex
| Cat (r1 r2 : regex) : regex
| Alt (r1 r2 : regex) : regex
| Star (r : regex) : regex.

Inductive lang : regex -> string -> Prop :=
| L_eps : lang Eps ""
| L_cls p c : p c = true -> lang (Cls p) (String c "")
| L_cat r1 r2 s1 s2 : lang r1 s1 -> lang r2 s2 -> lang (Cat r1 r2) (s1 ++ s2)
| L_alt_l r1 r2 s : lang r1 s -> lang (Alt r1 r2) s
| L_alt_r r1 r2 s : lang r2 s -> lang (Alt r1 r2) s
| L_star_nil r : lang (Star r) ""
| L_star_cons r s1 s2 : lang r s1 -> lang (Star r) s2 -> lang (Star r) (s1 ++ s2).

Fixpoint nullable (r : regex) : bool :=
  match r with
  | Void => false
  | Eps => true
  | Cls _ => false
  | Cat r1 r2 => nullable r1 && nullable r2
  | Alt r1 r2 => nullable r1 || nullable r2
  | Star _ => true
  end.

(** Constructors that drop the dead branches a derivative leaves behind. *)
Definition cat (r1 r2 : regex) : regex :=
  match r1 with
  | Void => Void
  | Eps => r2
  | _ => Cat r1 r2
  end.

Definition alt (r1 r2 : regex) : regex :=
  match r1, r2 with
  | Void, _ => r2
  | _, Void => r1
  | _, _ => Alt r1 r2
  end.

Fixpoint deriv (c : ascii) (r : regex) : regex :=
  match r with
  | Void => Void
  | Eps => Void
  | Cls p => if p c then Eps else Void
  | Cat r1 r2 =>
      if nullable r1
      then alt (cat (deriv c r1) r2) (deriv c r2)
      else cat (deriv c r1) r2
  | Alt r1 r2 => alt (deriv c r1) (deriv c r2)
  | Star r1 => cat (deriv c r1) (Star r1)
  end.

Fixpoint matches (r : regex) (s : string) : bool :=
  match s with
  | EmptyString => nullable r
  | String c s' => matches (deriv c r) s'
  end.

(** Pattern syntax. *)
Definition Plus (r : regex) : regex := Cat r (Star r).
Definition Opt (r : regex) : regex := Alt Eps r.
Definition Any : regex := Cls (fun _ => true).
Definition Chr (c : ascii) : regex := Cls (Ascii.eqb c).
(** A literal character under [re.IGNORECASE]. *)
Definition ChrI (c : ascii) : regex :=
  Cls (fun x => Ascii.eqb (PyStr.to_lower x) (PyStr.to_lower c)).
Definition Digit : regex := Cls PyStr.is_digit.
Definition Space : regex := Cls PyStr.is_space.
Fixpoint Seq (rs : list regex) : regex :=
  match rs with
  | [] => Eps
  | [r] => r
  | r :: rs' => Cat r (Seq rs')
  end.
Fixpoint LitI (s : string) : regex :=
  match s with
  | EmptyString => Eps
  | String c EmptyString => ChrI c
  | String c s' => Cat (ChrI c) (LitI s')
  end.

(** Every character of [s] is in the class [p]. *)
Fixpoint all_chars (p : ascii -> bool) (s : string) : bool :=
  match s with
  | EmptyString => true
  | String c s' => p c && all_chars p s'
  end.

(** [re.fullmatch(r, s)] as a truth value. *)
Definition fullmatch (r : regex) (s : string) : bool := matches r s.

(** [re.match(r, s)]: some prefix of [s] matches. *)
Definition match_ (r : regex) (s : string) : bool :=
  matches (Cat r (Star Any)) s.

(** [re.search(r + "$", s)] for a pattern [r] that ends in [\s*]: some
    suffix of [s] matches.  (Without [re.MULTILINE] the anchor [$] also
    holds before a final newline; the trailing [\s*] already takes it.) *)
Definition search_at_end (r : regex) (s : string) : bool :=
  matches (Cat (Star Any) r) s.

End Re.

(* ------------------------------------------------------------------ *)
(** ** Numbers, exceptions and blocks *)

Local Open Scope Q_scope.

Definition Qlt_bool (x y : Q) : bool := negb (Qle_bool y x).

Inductive exn : Type :=
| KeyError (key : string)
| ZeroDivisionError
| ValueError
| IndexError.

Inductive result (A : Type) : Type :=
| Ok (a : A)
| Raise (e : exn).

Arguments Ok {A} a.
Arguments Raise {A} e.

Definition bind {A B : Type} (m : result A) (k : A -> result B) : result B :=
  match m with
  | Ok a => k a
  | Raise e => Raise e
  end.

Notation "x <- m ;; k" := (bind m (fun x => k))
  (at level 61, m at next level, right associativity).

(** [d[key]] on a key that may be absent. *)
Definition item {A : Type} (key : string) (o : option A) : result A :=
  match o with
  | Some v => Ok v
  | None => Raise (KeyError key)
  end.

(** [d.get(key, default)] *)
Definition get {A : Type} (o : option A) (default : A) : A :=
  match o with
  | Some v => v
  | None => default
  end.

(** [a / b] *)
Definition truediv (a b : Q) : result Q :=
  if Qeq_bool b 0 then Raise ZeroDivisionError else Ok (a / b).

Record bbox_t : Type := { y0 : Q; y1 : Q }.

(** A text block.  [None] in a field is a block without that key. *)
Record block : Type := {
  text : string;
  font_size : option Q;
  is_bold : option bool;
  bbox : option bbox_t;
  page_number : option Z;
  page_height : option Q;
  vertical_space_before : option Q;
  final_label : option string
}.

(* ------------------------------------------------------------------ *)
(** ** The heading rule engine: [apply_advanced_rules] *)

Module Pattern.
Import Re.

(** [\.{3,}\s*\d+\s*$] *)
Definition toc : regex :=
  Seq [Chr "."; Chr "."; Chr "."; Star (Chr "."); Star Space; Plus Digit; Star Space].

(** [\s+\d+\s*$] *)
Definition trailing_number : regex := Seq [Plus Space; Plus Digit; Star Space].

(** [^\d+\.\s+] *)
Definition numbered : regex := Seq [Plus Digit; Chr "."; Plus Space].

(** [Version\s?[\d\.]+|[\d\w\s,]+20\d{2}] under [re.IGNORECASE] *)
Definition version : regex :=
  Seq [LitI "Version"; Opt Space;
       Plus (Cls (fun c => PyStr.is_digit c || Ascii.eqb c "."))].

Definition dated : regex :=
  Seq [Plus (Cls (fun c => PyStr.is_digit c || PyStr.is_word c
                           || PyStr.is_space c || Ascii.eqb c ","));
       Chr "2"; Chr "0"; Digit; Digit].

Definition metadata : regex := Alt version dated.

Definition nonzero_digit : regex :=
  Cls (fun c => PyStr.in_range 49 57 (PyStr.code c)).

(** [^[1-9]\d*\.[1-9]\d*\.\s+] *)
Definition level2 : regex :=
  Seq [nonzero_digit; Star Digit; Chr "."; nonzero_digit; Star Digit; Chr ".";
       Plus Space].

(** [^[1-9]\d*\.\s+] *)
Definition level1 : regex := Seq [nonzero_digit; Star Digit; Chr "."; Plus Space].

(** [[\d\W\s]+] *)
Definition no_letters : regex :=
  Plus (Cls (fun c => PyStr.is_digit c || negb (PyStr.is_word c)
                      || PyStr.is_space c)).


(** A four-digit year beginning with 20 anywhere in the text, as the
    specification words the date filter. *)
Definition spec_year_anywhere : regex :=
  Seq [Star Any; Chr "2"; Chr "0"; Digit; Digit; Star Any].

End Pattern.

(** Lines 27-33: the two table-of-contents filters. *)
Definition toc_filter (text : string) : bool :=
  Re.search_at_end Pattern.toc text.

Definition trailing_number_filter (text : string) : bool :=
  (2 <? List.length (PyStr.split text))%nat
  && Re.search_at_end Pattern.trailing_number text
  && negb (Re.match_ Pattern.numbered text).

(** Lines 37-39: header and footer zone. *)
Definition header_footer_filter (b : block) (median_font : Q) : result bool :=
  bb <- item "bbox" (bbox b) ;;
  y_pos_normalized <- truediv (y1 bb) (get (page_height b) (792 # 1)) ;;
  if Qlt_bool (9 # 10) y_pos_normalized || Qlt_bool y_pos_normalized (1 # 10)
  then fs <- item "font_size" (font_size b) ;; Ok (Qle_bool fs median_font)
  else Ok false.

(** Lines 43-46: table header. *)
Definition table_header_filter (b : block) (text : string) (median_font : Q)
  : result bool :=
  let words := PyStr.split text in
  if (2 <? List.length words)%nat
     && forallb (fun word => PyStr.istitle word || PyStr.isupper word) words
  then fs <- item "font_size" (font_size b) ;;
       Ok (Qlt_bool fs (median_font * (11 # 10)))
  else Ok false.

(** Lines 49-50: version numbers and dates of the title page. *)
Definition metadata_filter (b : block) (text : string) : result bool :=
  page <- item "page_number" (page_number b) ;;
  Ok ((page =? 1)%Z && Re.fullmatch Pattern.metadata text).

(** Lines 19-50: [Ok true] when a negative filter returns ['NONE'] early. *)
Definition negative_filters (b : block) (text : string) (median_font : Q)
  : result bool :=
  if PyStr.is_empty text then Ok true
  else if toc_filter text then Ok true
  else if trailing_number_filter text then Ok true
  else
    hf <- header_footer_filter b median_font ;;
    if hf then Ok true
    else
      th <- table_header_filter b text median_font ;;
      if th then Ok true
      else metadata_filter b text.

(** Lines 54-65: the heading score. *)
Definition heading_score (b : block) (text : string) (median_font : Q) : Z :=
  let font_size := get (font_size b) 0 in
  let is_bold := get (is_bold b) false in
  let space_before := get (vertical_space_before b) 0 in
  let relative_size :=
    if Qlt_bool 0 median_font then font_size / median_font else 1 in
  ((if is_bold then 2 else 0)
   + (if Qlt_bool (5 # 4) relative_size then 3
      else if Qlt_bool (23 # 20) relative_size then 2 else 0)
   + (if Qlt_bool (font_size * (3 # 2)) space_before then 2 else 0)
   + (if (150 <? String.length text)%nat then -3 else 0)
   + (if PyStr.endswith_any ["."; ":"; ";"]%char text then -2 else 0))%Z.

(** Lines 68-79: the decision. *)
Definition decision (b : block) (text predicted_label : string) (score : Z)
  : result string :=
  if PyStr.startswith "H" predicted_label && (score <? 1)%Z then Ok "NONE"
  else if String.eqb predicted_label "NONE" && (4 <=? score)%Z then
    if Re.match_ Pattern.level2 text then Ok "H2"
    else if Re.match_ Pattern.level1 text then Ok "H1"
    else Ok "H1"
  else if String.eqb predicted_label "TITLE" then
    page <- item "page_number" (page_number b) ;;
    if negb (page =? 1)%Z then Ok "H1" else Ok predicted_label
  else Ok predicted_label.

Definition apply_advanced_rules (b : block) (predicted_label : string)
  (median_font : Q) : result string :=
  let text := PyStr.strip (text b) in
  excluded <- negative_filters b text median_font ;;
  if excluded then Ok "NONE"
  else decision b text predicted_label (heading_score b text median_font).

(* ------------------------------------------------------------------ *)
(** ** Lists as Python sees them *)

Definition enumerate {A : Type} (l : list A) : list (nat * A) :=
  combine (seq 0 (List.length l)) l.

Definition nonempty {A : Type} (l : list A) : bool :=
  match l with [] => false | _ :: _ => true end.

(** A stable insertion sort: [x] goes after the leading elements [y] with
    [before y x]. *)
Fixpoint insert_by {A : Type} (before : A -> A -> bool) (x : A) (l : list A)
  : list A :=
  match l with
  | [] => [x]
  | y :: l' => if before y x then y :: insert_by before x l' else x :: l
  end.

Definition sort_by {A : Type} (before : A -> A -> bool) (l : list A) : list A :=
  fold_right (insert_by before) [] l.

(** [l.sort(key=key, reverse=True)]: descending keys, elements with equal
    keys in their original order. *)
Definition sort_reverse {A : Type} (key : A -> Q) (l : list A) : list A :=
  sort_by (fun y x => Qlt_bool (key x) (key y)) l.

(** [l.index(x)]; [ValueError] when [x] is not in [l]. *)
Fixpoint index_of {A : Type} (eqb : A -> A -> bool) (x : A) (l : list A)
  : result nat :=
  match l with
  | [] => Raise ValueError
  | y :: l' =>
      if eqb y x then Ok 0%nat
      else i <- index_of eqb x l' ;; Ok (S i)
  end.

Definition option_eqb {A : Type} (eqb : A -> A -> bool) (o1 o2 : option A)
  : bool :=
  match o1, o2 with
  | Some a, Some b => eqb a b
  | None, None => true
  | _, _ => false
  end.

Definition bbox_eqb (a b : bbox_t) : bool :=
  Qeq_bool (y0 a) (y0 b) && Qeq_bool (y1 a) (y1 b).

(** [==] on two blocks: the same keys with equal values. *)
Definition block_eqb (a b : block) : bool :=
  String.eqb (text a) (text b)
  && option_eqb Qeq_bool (font_size a) (font_size b)
  && option_eqb Bool.eqb (is_bold a) (is_bold b)
  && option_eqb bbox_eqb (bbox a) (bbox b)
  && option_eqb Z.eqb (page_number a) (page_number b)
  && option_eqb Qeq_bool (page_height a) (page_height b)
  && option_eqb Qeq_bool (vertical_space_before a) (vertical_space_before b)
  && option_eqb String.eqb (final_label a) (final_label b).

Definition pair_eqb (p q : block * nat) : bool :=
  block_eqb (fst p) (fst q) && (snd p =? snd q)%nat.

(* ------------------------------------------------------------------ *)
(** ** The store of list objects

    [structure_final_output] receives a reference to the list of labeled
    blocks and sorts a list in place.  The two list objects that matter for
    that, the argument and the ranked list of page-1 blocks, live in a
    store; an address is a position in it.  The accumulators
    ([title_parts], [title_block_indices], [outline]) never leave the
    function and are plain values. *)

Inductive obj : Type :=
| ListOfBlocks (l : list block)
| ListOfPairs (l : list (block * nat)).

Definition store : Type := list obj.
Definition addr : Type := nat.

Inductive outcome (A : Type) : Type :=
| Returns (a : A)
| Raises (e : exn)
| Dangling.

Arguments Returns {A} a.
Arguments Raises {A} e.
Arguments Dangling {A}.

Definition M (A : Type) : Type := store -> outcome A * store.

Definition ret {A : Type} (a : A) : M A := fun h => (Returns a, h).

Definition bindM {A B : Type} (m : M A) (k : A -> M B) : M B :=
  fun h =>
    match m h with
    | (Returns a, h') => k a h'
    | (Raises e, h') => (Raises e, h')
    | (Dangling, h') => (Dangling, h')
    end.

Notation "x <~ m ;; k" := (bindM m (fun x => k))
  (at level 61, m at next level, right associativity).

Definition lift {A : Type} (r : result A) : M A :=
  fun h => match r with Ok a => (Returns a, h) | Raise e => (Raises e, h) end.

Definition read_blocks (a : addr) : M (list block) :=
  fun h => match nth_error h a with
           | Some (ListOfBlocks l) => (Returns l, h)
           | _ => (Dangling, h)
           end.

Definition read_pairs (a : addr) : M (list (block * nat)) :=
  fun h => match nth_error h a with
           | Some (ListOfPairs l) => (Returns l, h)
           | _ => (Dangling, h)
           end.

Definition alloc (o : obj) : M addr :=
  fun h => (Returns (List.length h), (h ++ [o])%list).

Fixpoint set_nth {A : Type} (n : nat) (x : A) (l : list A) : list A :=
  match l, n with
  | [], _ => []
  | _ :: l', O => x :: l'
  | y :: l', S n' => y :: set_nth n' x l'
  end.

(** [l.sort(key=key, reverse=True)] on the list object at [a]. *)
Definition sort_in_place (a : addr) (key : block * nat -> Q) : M unit :=
  fun h => match nth_error h a with
           | Some (ListOfPairs l) =>
               (Returns tt, set_nth a (ListOfPairs (sort_reverse key l)) h)
           | _ => (Dangling, h)
           end.

(* ------------------------------------------------------------------ *)
(** ** The outline structurer: [structure_final_output] *)

Record entry : Type := {
  entry_level : string;
  entry_text : string;
  entry_page : Z
}.

Record output : Type := {
  title : string;
  outline : list entry
}.

(** Lines 94-98. *)
Definition sort_key (b : block * nat) : Q :=
  let text := PyStr.strip (text (fst b)) in
  if Re.fullmatch Pattern.no_letters text
     || (String.length text <? 4)%nat
     || String.eqb (PyStr.lower text) "copyright"
  then 0
  else get (font_size (fst b)) 0.

(** [b.get('page_number') == 1] *)
Definition on_page_1 (b : block) : bool :=
  match page_number b with
  | Some p => (p =? 1)%Z
  | None => false
  end.

(** Lines 113-126: the loop that merges following lines into the title. *)
Fixpoint merge_title (last_title_block : block) (rest : list (block * nat))
  (title_parts : list string) (title_block_indices : list nat)
  : result (list string * list nat) :=
  match rest with
  | [] => Ok (title_parts, title_block_indices)
  | (next_block, next_block_index) :: rest' =>
      nfs <- item "font_size" (font_size next_block) ;;
      lfs <- item "font_size" (font_size last_title_block) ;;
      let is_similar_font := Qlt_bool (Qabs (nfs - lfs)) 1 in
      nbb <- item "bbox" (bbox next_block) ;;
      lbb <- item "bbox" (bbox last_title_block) ;;
      let is_close_vertically := Qlt_bool (y0 nbb - y1 lbb) lfs in
      if is_similar_font && is_close_vertically
      then merge_title next_block rest'
             (title_parts ++ [text next_block])%list
             (title_block_indices ++ [next_block_index])%list
      else Ok (title_parts, title_block_indices)
  end.

(** Lines 107-128, on the ranked list. *)
Definition title_of_ranked (ranked : list (block * nat))
  : result (string * list nat) :=
  match ranked with
  | [] => Raise IndexError
  | (title_block, title_start_index) :: _ =>
      start <- index_of pair_eqb (title_block, title_start_index) ranked ;;
      merged <- merge_title title_block (skipn (start + 1) ranked)
                  [text title_block] [title_start_index] ;;
      Ok (String.concat " " (fst merged), snd merged)
  end.

(** [label and label.startswith('H')] *)
Definition heading_labeled (b : block) : bool :=
  match final_label b with
  | Some label => negb (PyStr.is_empty label) && PyStr.startswith "H" label
  | None => false
  end.

(** Lines 132-143. *)
Fixpoint build_outline (title_block_indices : list nat)
  (blocks : list (nat * block)) : result (list entry) :=
  match blocks with
  | [] => Ok []
  | (i, b) :: blocks' =>
      if existsb (Nat.eqb i) title_block_indices
      then build_outline title_block_indices blocks'
      else if heading_labeled b then
        page <- item "page_number" (page_number b) ;;
        rest <- build_outline title_block_indices blocks' ;;
        Ok ({| entry_level := get (final_label b) "";
               entry_text := text b;
               entry_page := page |} :: rest)
      else build_outline title_block_indices blocks'
  end.

Definition structure_final_output (labeled_blocks : addr) : M output :=
  blocks <~ read_blocks labeled_blocks ;;
  let page1_blocks := filter on_page_1 blocks in
  found <~
    (if nonempty page1_blocks then
       blocks <~ read_blocks labeled_blocks ;;
       page1_blocks_with_indices <~
         alloc (ListOfPairs
                  (map (fun ib => (snd ib, fst ib))
                     (filter (fun ib => on_page_1 (snd ib)) (enumerate blocks)))) ;;
       pairs <~ read_pairs page1_blocks_with_indices ;;
       if nonempty pairs then
         _ <~ sort_in_place page1_blocks_with_indices sort_key ;;
         ranked <~ read_pairs page1_blocks_with_indices ;;
         lift (title_of_ranked ranked)
       else ret ("Untitled Document", [])
     else ret ("Untitled Document", [])) ;;
  blocks <~ read_blocks labeled_blocks ;;
  outline <~ lift (build_outline (snd found) (enumerate blocks)) ;;
  ret {| title := PyStr.strip (fst found); outline := outline |}.

(** The structurer called on a list of blocks: the list is the only object
    of the store. *)
Definition structure (labeled_blocks : list block) : outcome output :=
  fst (structure_final_output 0%nat [ListOfBlocks labeled_blocks]).

(* ------------------------------------------------------------------ *)
(** ** The per-block loop of [predict_outline] *)

(** [np.median]: the middle element of the sorted sizes, or the mean of the
    two middle ones. *)
Definition middle (s : list Q) : Q :=
  let n := List.length s in
  if Nat.even n
  then (nth (n / 2 - 1) s 0 + nth (n / 2) s 0) / (2 # 1)
  else nth (n / 2) s 0.

Definition np_median (l : list Q) : Q :=
  middle (sort_by (fun y x => Qlt_bool y x) l).

(** Lines 177-178. *)
Definition compute_median_font (blocks : list block) : Q :=
  let doc_font_sizes :=
    map (fun b => get (font_size b) 0)
      (filter (fun b => Qlt_bool (6 # 1) (get (font_size b) 0)) blocks) in
  if nonempty doc_font_sizes then np_median doc_font_sizes else (12 # 1).

(** [last_heading_info] *)
Record heading_info : Type := {
  info_index : Z;
  info_level : Z;
  info_font_size : Q
}.

(** Line 180. *)
Definition initial_heading_info (median_font : Q) : heading_info :=
  {| info_index := -1; info_level := 0; info_font_size := median_font |}.

(** Lines 198-205. *)
Definition update_heading_info (last_heading_info : heading_info) (i : nat)
  (b : block) (final_label : string) (median_font : Q) : heading_info :=
  if PyStr.startswith "H" final_label then
    match PyStr.int (PyStr.tail final_label) with
    | Some level =>
        {| info_index := Z.of_nat i;
           info_level := level;
           info_font_size := get (font_size b) median_font |}
    | None => last_heading_info
    end
  else if String.eqb final_label "TITLE" then
    {| info_index := Z.of_nat i;
       info_level := 0;
       info_font_size := get (font_size b) median_font |}
  else last_heading_info.

Definition set_final_label (b : block) (label : string) : block :=
  {| text := text b;
     font_size := font_size b;
     is_bold := is_bold b;
     bbox := bbox b;
     page_number := page_number b;
     page_height := page_height b;
     vertical_space_before := vertical_space_before b;
     final_label := Some label |}.

Section Loop.

(** Lines 184-190: the first-pass label of block [i], as the feature
    extractor, the classifier and the inverse label map produce it from the
    block, its index, the median font and the heading context.  Their code
    is outside the repository's sources. *)
Variable first_pass : block -> nat -> Q -> heading_info -> string.

(** One iteration of the loop of lines 183-205. *)
Definition loop_step (median_font : Q)
  (state : heading_info * list block) (ib : nat * block)
  : result (heading_info * list block) :=
  let '(last_heading_info, all_labeled_blocks) := state in
  let '(i, b) := ib in
  let initial_label := first_pass b i median_font last_heading_info in
  final_label <- apply_advanced_rules b initial_label median_font ;;
  let b' := set_final_label b final_label in
  Ok (update_heading_info last_heading_info i b' final_label median_font,
      (all_labeled_blocks ++ [b'])%list).

Fixpoint loop (median_font : Q) (state : heading_info * list block)
  (blocks : list (nat * block)) : result (heading_info * list block) :=
  match blocks with
  | [] => Ok state
  | ib :: blocks' =>
      state' <- loop_step median_font state ib ;;
      loop median_font state' blocks'
  end.

(** Lines 177-205. *)
Definition label_blocks (blocks : list block)
  : result (heading_info * list block) :=
  let median_font := compute_median_font blocks in
  loop median_font (initial_heading_info median_font, []) (enumerate blocks).

End Loop.

(* ------------------------------------------------------------------ *)
(** ** Reference definitions *)

(** The class of [[\d\W\s]]: a digit, or a character that is no word
    character, or whitespace. *)
Definition digit_or_symbol (c : ascii) : bool :=
  PyStr.is_digit c || negb (PyStr.is_word c) || PyStr.is_space c.

(** The texts [sort_key] ranks last: digits, symbols and whitespace only, or
    fewer than four characters, or the word "copyright" in any case. *)
Definition ranked_last (t : string) : bool :=
  (negb (PyStr.is_empty t) && Re.all_chars digit_or_symbol t)
  || (String.length t <? 4)%nat
  || String.eqb (PyStr.lower t) "copyright".

(** The same set as the specification words it: purely non-alphanumeric or
    whitespace, or shorter than four characters, or "copyright". *)
Definition spec_low_priority (t : string) : bool :=
  Re.all_chars (fun c => negb (PyStr.is_alpha c || PyStr.is_numeric c)
                         || PyStr.is_space c) t
  || (String.length t <? 4)%nat
  || String.eqb (PyStr.lower t) "copyright".

(** The font sizes the specification takes the median of: those of the
    blocks whose font size exceeds 6, in block order. *)
Fixpoint qualifying_sizes (blocks : list block) : list Q :=
  match blocks with
  | [] => []
  | b :: blocks' =>
      match font_size b with
      | Some size =>
          if Qlt_bool (6 # 1) size then size :: qualifying_sizes blocks'
          else qualifying_sizes blocks'
      | None => qualifying_sizes blocks'
      end
  end.

(** The median as the specification means it: the value in the middle of
    the sizes in ascending order, or the mean of the two in the middle. *)
Definition is_median (l : list Q) (m : Q) : Prop :=
  exists s : list Q,
    Permutation l s /\ StronglySorted Qle s /\
    ((exists lo x hi,
         s = (lo ++ x :: hi)%list /\ List.length lo = List.length hi /\ m == x)
     \/ (exists lo x y hi,
            s = (lo ++ x :: y :: hi)%list /\ List.length lo = List.length hi
            /\ m == (x + y) / (2 # 1))).

(** The structurer without the store: the page-1 entries it ranks, the title
    and title indices it finds, and the indices and headings it keeps. *)
Definition page1_pairs (blocks : list block) : list (block * nat) :=
  map (fun ib => (snd ib, fst ib))
    (filter (fun ib => on_page_1 (snd ib)) (enumerate blocks)).

Definition find_title (blocks : list block) : result (string * list nat) :=
  if nonempty (filter on_page_1 blocks) then
    if nonempty (page1_pairs blocks)
    then title_of_ranked (sort_reverse sort_key (page1_pairs blocks))
    else Ok ("Untitled Document", [])
  else Ok ("Untitled Document", []).

(** The store after the structurer has run on [blocks] in the store [h]. *)
Definition store_after (h : store) (blocks : list block) : store :=
  if nonempty (filter on_page_1 blocks) then
    (h ++ [ListOfPairs
             (if nonempty (page1_pairs blocks)
              then sort_reverse sort_key (page1_pairs blocks)
              else page1_pairs blocks)])%list
  else h.

(** A block that stays in the outline: not used in the title and labeled as
    a heading. *)
Definition kept (title_block_indices : list nat) (ib : nat * block) : bool :=
  negb (existsb (Nat.eqb (fst ib)) title_block_indices)
  && heading_labeled (snd ib).

Definition entry_view (e : entry) : string * string * option Z :=
  (entry_level e, entry_text e, Some (entry_page e)).

Definition block_view (ib : nat * block) : string * string * option Z :=
  (get (final_label (snd ib)) "", text (snd ib), page_number (snd ib)).


(* ------------------------------------------------------------------ *)
(** ** Sample blocks *)

Module Sample.

(** A block with every key present, not bold, on a page 792 units high. *)
Definition plain (t : string) (size : Q) (page : Z) (top bottom : Q) : block :=
  {| text := t;
     font_size := Some size;
     is_bold := Some false;
     bbox := Some {| y0 := top; y1 := bottom |};
     page_number := Some page;
     page_height := Some (792 # 1);
     vertical_space_before := Some 0;
     final_label := None |}.

Definition bold (b : block) : block :=
  {| text := text b;
     font_size := font_size b;
     is_bold := Some true;
     bbox := bbox b;
     page_number := page_number b;
     page_height := page_height b;
     vertical_space_before := vertical_space_before b;
     final_label := final_label b |}.

(** A line of a table of contents on page 2. *)
Definition toc_line : block :=
  plain "Chapter One ..... 12" (18 # 1) 2 (300 # 1) (320 # 1).

Definition overview : block :=
  plain "Overview" (18 # 1) 2 (300 # 1) (320 # 1).

Definition cover_title : block :=
  plain "Project Plan" (24 # 1) 1 (300 # 1) (330 # 1).


Definition sub_numbered : block :=
  bold (plain "1.2. Scope" (16 # 1) 2 (300 # 1) (320 # 1)).

Definition annual_report : block :=
  bold (plain "2023 Annual Report" (24 # 1) 1 (300 # 1) (330 # 1)).

Definition june_2023 : block :=
  plain "June 2023" (12 # 1) 1 (400 # 1) (415 # 1).

(** Blocks without the key [font_size]: one in the footer zone, one that
    reads like a table header. *)
Definition footer_without_size : block :=
  {| text := "Draft";
     font_size := None;
     is_bold := None;
     bbox := Some {| y0 := 770 # 1; y1 := 780 # 1 |};
     page_number := Some 2%Z;
     page_height := None;
     vertical_space_before := None;
     final_label := None |}.

Definition header_without_size : block :=
  {| text := "Version Date Remarks";
     font_size := None;
     is_bold := None;
     bbox := Some {| y0 := 300 # 1; y1 := 312 # 1 |};
     page_number := Some 2%Z;
     page_height := None;
     vertical_space_before := None;
     final_label := None |}.

Definition footer_zero_size : block :=
  {| text := "Draft";
     font_size := Some 0;
     is_bold := None;
     bbox := Some {| y0 := 770 # 1; y1 := 780 # 1 |};
     page_number := Some 2%Z;
     page_height := None;
     vertical_space_before := None;
     final_label := None |}.

(** A page-1 block whose text is a year. *)
Definition year_2023 : block :=
  plain "2023" (20 # 1) 1 (300 # 1) (320 # 1).

End Sample.

(** The four blocks of the end-to-end scenario, with final labels [l0],
    [l1] and [l3] on the first, second and fourth block and H1 on the
    third. *)
Module Scenario.

Definition project_plan (l0 : option string) : block :=
  {| text := "Project Plan";
     font_size := Some (24 # 1);
     is_bold := Some true;
     bbox := Some {| y0 := 10 # 1; y1 := 30 # 1 |};
     page_number := Some 1%Z;
     page_height := None;
     vertical_space_before := None;
     final_label := l0 |}.

Definition a_report (size : Q) (l1 : option string) : block :=
  {| text := "A Report";
     font_size := Some size;
     is_bold := Some true;
     bbox := Some {| y0 := 32 # 1; y1 := 50 # 1 |};
     page_number := Some 1%Z;
     page_height := None;
     vertical_space_before := None;
     final_label := l1 |}.

Definition introduction : block :=
  {| text := "1. Introduction";
     font_size := Some (16 # 1);
     is_bold := Some true;
     bbox := Some {| y0 := 10 # 1; y1 := 25 # 1 |};
     page_number := Some 2%Z;
     page_height := None;
     vertical_space_before := Some (30 # 1);
     final_label := Some "H1" |}.

Definition body (l3 : option string) : block :=
  {| text := "This is body text.";
     font_size := Some (11 # 1);
     is_bold := None;
     bbox := Some {| y0 := 30 # 1; y1 := 45 # 1 |};
     page_number := Some 2%Z;
     page_height := None;
     vertical_space_before := None;
     final_label := l3 |}.

Definition blocks (l0 l1 l3 : option string) : list block :=
  [project_plan l0; a_report (23 # 1) l1; introduction; body l3].

(** The same blocks with the second line in font size 23.5. *)
Definition close_blocks (l0 l1 l3 : option string) : list block :=
  [project_plan l0; a_report (47 # 2) l1; introduction; body l3].

Definition introduction_entry : entry :=
  {| entry_level := "H1"; entry_text := "1. Introduction"; entry_page := 2 |}.

End Scenario.

(* ------------------------------------------------------------------ *)
(** ** [predict_outline] from the extracted blocks on *)

Section Predict.

Variable first_pass : block -> nat -> Q -> heading_info -> string.

(** Lines 166-209, after the model is loaded and the blocks are extracted:
    nothing is produced for a document without blocks ([None]); otherwise
    the blocks are labeled in order and handed to the structurer. *)
Definition predict_outline (blocks : list block) : option (outcome output) :=
  if nonempty blocks then
    Some (match label_blocks first_pass blocks with
          | Ok (_, all_labeled_blocks) => structure all_labeled_blocks
          | Raise e => Raises e
          end)
  else None.

End Predict.

(* ------------------------------------------------------------------ *)
(** ** File names of the batch driver: [process_directory] *)

Module Batch.

(** [s.endswith(suffix)] *)
Fixpoint endswith (suffix s : string) : bool :=
  String.eqb s suffix
  || match s with
     | EmptyString => false
     | String _ s' => endswith suffix s'
     end.

(** [s.rfind(c)] for a character [c]: the last position of [c], or -1. *)
Fixpoint rfind (c : ascii) (s : string) : Z :=
  match s with
  | EmptyString => -1
  | String x s' =>
      let r := rfind c s' in
      if (0 <=? r)%Z then (r + 1)%Z
      else if Ascii.eqb x c then 0%Z else (-1)%Z
  end.

(** [os.path.splitext] of [posixpath]: the extension starts at the last dot
    of the last path component, unless only dots precede it there. *)
Definition splitext (p : string) : string * string :=
  let sepIndex := rfind "/" p in
  let dotIndex := rfind "." p in
  if (sepIndex <? dotIndex)%Z then
    let leading :=
      substring (Z.to_nat (sepIndex + 1)) (Z.to_nat (dotIndex - sepIndex - 1)) p in
    if Re.all_chars (Ascii.eqb ".") leading then (p, "")
    else (substring 0 (Z.to_nat dotIndex) p,
          substring (Z.to_nat dotIndex) (String.length p - Z.to_nat dotIndex) p)
  else (p, "").

(** Line 23: the test that selects the files to process. *)
Definition is_pdf (f : string) : bool := endswith ".pdf" (PyStr.lower f).

(** Lines 38-39. *)
Definition output_json_filename (pdf_filename : string) : string :=
  fst (splitext pdf_filename) ++ ".json".

(** Line 23: the files of the directory listing that are processed. *)
Definition pdf_files (listing : list string) : list string :=
  filter is_pdf listing.

End Batch.

(* ------------------------------------------------------------------ *)
(** ** Reference definitions for the further properties *)

(** [c * n] *)
Fixpoint replicate (c : ascii) (n : nat) : string :=
  match n with
  | O => EmptyString
  | S n' => String c (replicate c n')
  end.

(** The three typographic cues the score rewards. *)
Definition relative_size (b : block) (median_font : Q) : Q :=
  if Qlt_bool 0 median_font then get (font_size b) 0 / median_font else 1.

Definition cue_bold (b : block) : bool := get (is_bold b) false.

Definition cue_large (b : block) (median_font : Q) : bool :=
  Qlt_bool (23 # 20) (relative_size b median_font).

Definition cue_space (b : block) : bool :=
  Qlt_bool (get (font_size b) 0 * (3 # 2)) (get (vertical_space_before b) 0).

Definition count_true (l : list bool) : nat :=
  List.length (filter (fun x => x) l).

(** The first element with the greatest key. *)
Fixpoint first_max {A : Type} (key : A -> Q) (l : list A) : option A :=
  match l with
  | [] => None
  | x :: l' =>
      match first_max key l' with
      | None => Some x
      | Some y => if Qlt_bool (key x) (key y) then Some y else Some x
      end
  end.

(** The first and the last character of a string are no whitespace. *)
Definition trimmed (s : string) : Prop :=
  match s with
  | EmptyString => True
  | String c _ =>
      PyStr.is_space c = false
      /\ exists d, PyStr.last_char s = Some d /\ PyStr.is_space d = false
  end.

(** A block without any of the optional keys. *)
Definition bare (t : string) : block :=
  {| text := t;
     font_size := None;
     is_bold := None;
     bbox := None;
     page_number := None;
     page_height := None;
     vertical_space_before := None;
     final_label := None |}.

(** A block on a page whose height is recorded as 0. *)
Definition on_flat_page : block :=
  {| text := "Overview";
     font_size := Some (18 # 1);
     is_bold := None;
     bbox := Some {| y0 := 300 # 1; y1 := 320 # 1 |};
     page_number := Some 2%Z;
     page_height := Some 0;
     vertical_space_before := None;
     final_label := None |}.

(** The heading context is the initial one, or it describes a block that is
    already labeled: the block's position and font size (the median when it
    has none), and level 0 for a TITLE or the number after the H. *)
Definition context_ok (median_font : Q) (labeled : list block)
  (info : heading_info) : Prop :=
  info = initial_heading_info median_font
  \/ exists (i : nat) (b : block) (fl : string),
       nth_error labeled i = Some b
       /\ final_label b = Some fl
       /\ info_index info = Z.of_nat i
       /\ info_font_size info = get (font_size b) median_font
       /\ ((fl = "TITLE" /\ info_level info = 0%Z)
           \/ (PyStr.startswith "H" fl = true
               /\ PyStr.int (PyStr.tail fl) = Some (info_level info))).

(** The label a block gets: the engine's answer to some first-pass label. *)
Definition labeled_from (median_font : Q) (b b' : block) : Prop :=
  exists pl l : string,
    apply_advanced_rules b pl median_font = Ok l /\ b' = set_final_label b l.

(** A small document: a cover line, a numbered heading and body text. *)
Definition report : list block :=
  [Sample.cover_title;
   Sample.sub_numbered;
   Sample.plain "The scope of the work is set out below" (11 # 1) 2
     (330 # 1) (342 # 1);
   Sample.plain "It covers the first phase of the project" (11 # 1) 2
     (345 # 1) (357 # 1);
   Sample.plain "and the handover to operations" (11 # 1) 2
     (360 # 1) (372 # 1)].

(** A first pass that calls page-1 blocks TITLE and everything else NONE. *)
Definition cover_first_pass (b : block) (i : nat) (median_font : Q)
  (info : heading_info) : string :=
  if on_page_1 b then "TITLE" else "NONE".

Definition scope_entry : entry :=
  {| entry_level := "H2"; entry_text := "1.2. Scope"; entry_page := 2 |}.



(* ================================================================== *)
(** * Properties *)

(** ** The matcher decides membership in the language of a pattern *)

Module ReFacts.
Import Re.

Lemma append_nil_r (s : string) : s ++ "" = s.
Proof. induction s as [|c s IH]; simpl; [reflexivity | now rewrite IH]. Qed.

Lemma append_assoc (s1 s2 s3 : string) : (s1 ++ s2) ++ s3 = s1 ++ (s2 ++ s3).
Proof. induction s1 as [|c s1 IH]; simpl; [reflexivity | now rewrite IH]. Qed.

Lemma append_empty (s1 s2 : string) : s1 ++ s2 = "" -> s1 = "" /\ s2 = "".
Proof. destruct s1; simpl; [auto | discriminate]. Qed.

Lemma lang_void (s : string) : ~ lang Void s.
Proof. intro H; inversion H. Qed.

Lemma lang_eps (s : string) : lang Eps s -> s = "".
Proof. intro H; now inversion H. Qed.

Lemma lang_cat_inv (r1 r2 : regex) (s : string) :
  lang (Cat r1 r2) s -> exists s1 s2, s = s1 ++ s2 /\ lang r1 s1 /\ lang r2 s2.
Proof. intro H; inversion H; subst; eauto. Qed.

Lemma lang_alt_inv (r1 r2 : regex) (s : string) :
  lang (Alt r1 r2) s -> lang r1 s \/ lang r2 s.
Proof. intro H; inversion H; subst; auto. Qed.

Lemma nullable_lang (r : regex) : nullable r = true <-> lang r "".
Proof.
  induction r as [| |p|r1 IH1 r2 IH2|r1 IH1 r2 IH2|r IH]; simpl; split; intro H;
    try discriminate; try reflexivity.
  - inversion H.
  - constructor.
  - inversion H.
  - apply andb_true_iff in H as [H1 H2].
    change "" with ("" ++ ""). constructor; [now apply IH1 | now apply IH2].
  - apply lang_cat_inv in H as (s1 & s2 & E & L1 & L2).
    symmetry in E. apply append_empty in E as [-> ->].
    apply andb_true_iff; split; [now apply IH1 | now apply IH2].
  - apply orb_true_iff in H as [H|H];
      [apply L_alt_l; now apply IH1 | apply L_alt_r; now apply IH2].
  - apply orb_true_iff.
    apply lang_alt_inv in H as [H|H]; [left; now apply IH1 | right; now apply IH2].
  - constructor.
Qed.

Lemma lang_cat (r1 r2 : regex) (s : string) :
  lang (cat r1 r2) s <-> lang (Cat r1 r2) s.
Proof.
  destruct r1; simpl; try tauto; split; intro H.
  - inversion H.
  - apply lang_cat_inv in H as (s1 & s2 & _ & L1 & _). now apply lang_void in L1.
  - change s with ("" ++ s). constructor; [constructor | assumption].
  - apply lang_cat_inv in H as (s1 & s2 & -> & L1 & L2).
    apply lang_eps in L1; subst; assumption.
Qed.

Lemma lang_alt (r1 r2 : regex) (s : string) :
  lang (alt r1 r2) s <-> lang (Alt r1 r2) s.
Proof.
  assert (Hr : lang r2 s <-> lang (Alt Void r2) s).
  { split; intro H; [now apply L_alt_r |].
    apply lang_alt_inv in H as [H|H]; [now apply lang_void in H | assumption]. }
  assert (Hl : lang r1 s <-> lang (Alt r1 Void) s).
  { split; intro H; [now apply L_alt_l |].
    apply lang_alt_inv in H as [H|H]; [assumption | now apply lang_void in H]. }
  destruct r1; simpl; try exact Hr; destruct r2; simpl; try exact Hl; tauto.
Qed.

Lemma lang_star_cons (r : regex) (c : ascii) (s : string) :
  lang (Star r) (String c s) ->
  exists s1 s2, s = s1 ++ s2 /\ lang r (String c s1) /\ lang (Star r) s2.
Proof.
  intro H. remember (Star r) as r' eqn:Er. remember (String c s) as t eqn:Et.
  revert s Et.
  induction H as [| | | | | |r0 s1 s2 L1 _ L2 IH2]; intros s' Et;
    try discriminate.
  injection Er as ->.
  destruct s1 as [|c1 s1]; simpl in Et.
  - now apply IH2.
  - injection Et as Ec Es; subst. now exists s1, s2.
Qed.

Lemma deriv_lang (c : ascii) (r : regex) :
  forall s, lang (deriv c r) s <-> lang r (String c s).
Proof.
  induction r as [| |p|r1 IH1 r2 IH2|r1 IH1 r2 IH2|r IH]; intro s; simpl.
  - split; intro H; inversion H.
  - split; intro H; inversion H.
  - destruct (p c) eqn:Ep; split; intro H.
    + apply lang_eps in H; subst. now constructor.
    + inversion H; subst; constructor.
    + inversion H.
    + inversion H; subst; congruence.
  - assert (Hcat : lang (cat (deriv c r1) r2) s ->
                   lang (Cat r1 r2) (String c s)).
    { intro H. apply lang_cat in H.
      apply lang_cat_inv in H as (s1 & s2 & -> & L1 & L2).
      change (String c (s1 ++ s2)) with (String c s1 ++ s2).
      constructor; [now apply IH1 | assumption]. }
    assert (Hinv : lang (Cat r1 r2) (String c s) ->
                   (lang r1 "" /\ lang r2 (String c s))
                   \/ lang (cat (deriv c r1) r2) s).
    { intro H. apply lang_cat_inv in H as (s1 & s2 & E & L1 & L2).
      destruct s1 as [|c1 s1]; simpl in E.
      - subst s2. now left.
      - injection E as Ec Es; subst. right. apply lang_cat.
        constructor; [now apply IH1 | assumption]. }
    destruct (nullable r1) eqn:En; split; intro H.
    + apply lang_alt in H. apply lang_alt_inv in H as [H|H]; [now apply Hcat |].
      change (String c s) with ("" ++ String c s).
      constructor; [now apply nullable_lang | now apply IH2].
    + apply lang_alt. apply Hinv in H as [[_ H]|H];
        [apply L_alt_r; now apply IH2 | now apply L_alt_l].
    + now apply Hcat.
    + apply Hinv in H as [[H _]|H]; [| assumption].
      apply nullable_lang in H; congruence.
  - split; intro H.
    + apply lang_alt in H. apply lang_alt_inv in H as [H|H];
        [apply L_alt_l; now apply IH1 | apply L_alt_r; now apply IH2].
    + apply lang_alt. apply lang_alt_inv in H as [H|H];
        [apply L_alt_l; now apply IH1 | apply L_alt_r; now apply IH2].
  - split; intro H.
    + apply lang_cat in H. apply lang_cat_inv in H as (s1 & s2 & -> & L1 & L2).
      change (String c (s1 ++ s2)) with (String c s1 ++ s2).
      constructor; [now apply IH | assumption].
    + apply lang_cat. apply lang_star_cons in H as (s1 & s2 & -> & L1 & L2).
      constructor; [now apply IH | assumption].
Qed.

(** The matcher is correct and complete for the language of the pattern. *)
Lemma matches_lang (r : regex) (s : string) : matches r s = true <-> lang r s.
Proof.
  revert r; induction s as [|c s IH]; intro r; simpl.
  - apply nullable_lang.
  - rewrite IH. apply deriv_lang.
Qed.

(** A repeated character class holds of the strings made of that class. *)
Lemma matches_void (s : string) : matches Void s = false.
Proof. induction s; simpl; auto. Qed.

Lemma matches_star_cls (p : ascii -> bool) (s : string) :
  matches (Star (Cls p)) s = all_chars p s.
Proof.
  induction s as [|c s IH]; simpl; [reflexivity |].
  destruct (p c); simpl; [exact IH | apply matches_void].
Qed.

Lemma matches_plus_cls (p : ascii -> bool) (s : string) :
  matches (Plus (Cls p)) s = negb (PyStr.is_empty s) && all_chars p s.
Proof.
  destruct s as [|c s]; simpl; [reflexivity |].
  destruct (p c); simpl; [apply matches_star_cls | apply matches_void].
Qed.

End ReFacts.

(* ------------------------------------------------------------------ *)
(** ** The heading rule engine *)

Lemma apply_advanced_rules_excluded (b : block) (pl : string) (m : Q) :
  negative_filters b (PyStr.strip (text b)) m = Ok true ->
  apply_advanced_rules b pl m = Ok "NONE".
Proof. unfold apply_advanced_rules; intros ->; reflexivity. Qed.


(** A block that reaches the decision carries a page number: the metadata
    filter has read it. *)
Lemma negative_filters_kept_page (b : block) (t : string) (m : Q) :
  negative_filters b t m = Ok false -> exists p, page_number b = Some p.
Proof.
  unfold negative_filters, metadata_filter.
  destruct (PyStr.is_empty t); [discriminate |].
  destruct (toc_filter t); [discriminate |].
  destruct (trailing_number_filter t); [discriminate |].
  destruct (header_footer_filter b m) as [[|]|]; simpl; try discriminate.
  destruct (table_header_filter b t m) as [[|]|]; simpl; try discriminate.
  destruct (page_number b) as [p|]; simpl; [eauto | discriminate].
Qed.


(** The negative filters raise nothing on a block that has a bounding box,
    a font size, a page number and a page height other than zero. *)
Lemma negative_filters_defined (b : block) (t : string) (m : Q) :
  bbox b <> None -> font_size b <> None -> page_number b <> None ->
  Qeq_bool (get (page_height b) (792 # 1)) 0 = false ->
  exists r, negative_filters b t m = Ok r.
Proof.
  intros Hb Hf Hp Hh.
  unfold negative_filters, header_footer_filter, table_header_filter,
    metadata_filter, truediv.
  destruct (bbox b) as [bb|]; [| congruence].
  destruct (font_size b) as [fs|]; [| congruence].
  destruct (page_number b) as [p|]; [| congruence].
  rewrite Hh; simpl.
  destruct (PyStr.is_empty t); [eauto |].
  destruct (toc_filter t); [eauto |].
  destruct (trailing_number_filter t); [eauto |].
  destruct (_ || _)%bool; simpl.
  - destruct (Qle_bool fs m); [eauto |].
    destruct (_ && _)%bool; simpl; [| eauto].
    destruct (Qlt_bool fs _); eauto.
  - destruct (_ && _)%bool; simpl; [| eauto].
    destruct (Qlt_bool fs _); eauto.
Qed.

(** On page 1 a text that matches the metadata pattern never gets past the
    negative filters. *)
Lemma negative_filters_metadata (b : block) (t : string) (m : Q) (r : bool) :
  page_number b = Some 1%Z -> Re.fullmatch Pattern.metadata t = true ->
  negative_filters b t m = Ok r -> r = true.
Proof.
  intros Hp Hm. unfold negative_filters, metadata_filter. rewrite Hp, Hm; simpl.
  destruct (PyStr.is_empty t); [congruence |].
  destruct (toc_filter t); [congruence |].
  destruct (trailing_number_filter t); [congruence |].
  destruct (header_footer_filter b m) as [[|]|]; simpl; try congruence.
  destruct (table_header_filter b t m) as [[|]|]; simpl; congruence.
Qed.







(** C4: no exception is raised when optional keys are absent, a missing
    font size counting as 0 in every filter and scoring step.  The code
    breaks this: the two filters read [font_size] without a default, so a
    block without that key raises KeyError in the header/footer filter when
    it lies in the top or bottom tenth of the page, and in the table-header
    filter when it has more than two title-cased words.  The same footer
    block with font size 0 is labeled NONE, and the scoring step does take
    the missing size as 0. *)
Theorem missing_font_size_raises :
  apply_advanced_rules Sample.footer_without_size "NONE" (12 # 1)
    = Raise (KeyError "font_size")
  /\ apply_advanced_rules Sample.header_without_size "NONE" (12 # 1)
    = Raise (KeyError "font_size")
  /\ apply_advanced_rules Sample.footer_zero_size "NONE" (12 # 1) = Ok "NONE"
  /\ heading_score Sample.footer_without_size "Draft" (12 # 1)
    = heading_score Sample.footer_zero_size "Draft" (12 # 1).
Proof. repeat split; vm_compute; reflexivity. Qed.

(** C5, as stated, fails: "2023 Annual Report" on page 1 contains a year
    beginning with 20, yet it is not excluded; with first-pass label H1 it
    stays H1. *)
Lemma C5_counterexample :
  ~ (forall (b : block) (pl : string) (m : Q),
        page_number b = Some 1%Z ->
        Re.fullmatch Pattern.spec_year_anywhere (PyStr.strip (text b)) = true ->
        apply_advanced_rules b pl m = Ok "NONE").
Proof.
  intro H.
  specialize (H Sample.annual_report "H1" (11 # 1) eq_refl).
  vm_compute in H. specialize (H eq_refl). discriminate.
Qed.

(** C5 (amended): on page 1, a block (with bounding box, font size and
    non-zero page height) whose stripped text fully matches
    [Version\s?[\d\.]+] or [[\d\w\s,]+20\d{2}] -- one or more digits, word
    characters, whitespace or commas followed by "20" and two digits at the
    very end of the text -- comes out as NONE; on any other page the
    metadata filter does not fire. *)
Theorem metadata_filter_page_1 (b : block) (pl : string) (m : Q) :
  (page_number b = Some 1%Z ->
   Re.fullmatch Pattern.metadata (PyStr.strip (text b)) = true ->
   bbox b <> None -> font_size b <> None ->
   Qeq_bool (get (page_height b) (792 # 1)) 0 = false ->
   apply_advanced_rules b pl m = Ok "NONE")
  /\ (forall (p : Z) (t : string),
        page_number b = Some p -> p <> 1%Z -> metadata_filter b t = Ok false).
Proof.
  split.
  - intros Hp Hm Hb Hf Hh.
    destruct (negative_filters_defined b (PyStr.strip (text b)) m Hb Hf
                ltac:(congruence) Hh) as [r Hr].
    rewrite (negative_filters_metadata _ _ _ _ Hp Hm Hr) in Hr.
    now apply apply_advanced_rules_excluded.
  - intros p t Hp Hne. unfold metadata_filter. rewrite Hp; simpl.
    destruct (Z.eqb_spec p 1); [contradiction | reflexivity].
Qed.

Lemma metadata_filter_page_1_witness :
  apply_advanced_rules Sample.june_2023 "H1" (11 # 1) = Ok "NONE"
  /\ metadata_filter Sample.overview "June 2023" = Ok false.
Proof.
  split.
  - apply (proj1 (metadata_filter_page_1 Sample.june_2023 "H1" (11 # 1)));
      try reflexivity; discriminate.
  - apply (proj2 (metadata_filter_page_1 Sample.overview "H1" (11 # 1)) 2%Z);
      [reflexivity | discriminate].
Defined.



(* ------------------------------------------------------------------ *)
(** ** Sorting *)

Section SortBy.

Variable A : Type.
Variable before : A -> A -> bool.
Variable le : A -> A -> Prop.
Hypothesis before_le : forall y x, before y x = true -> le y x.
Hypothesis not_before_le : forall y x, before y x = false -> le x y.
Hypothesis le_trans : forall x y z, le x y -> le y z -> le x z.

Lemma insert_by_perm (x : A) (l : list A) :
  Permutation (x :: l) (insert_by before x l).
Proof.
  induction l as [|y l IH]; simpl; [reflexivity |].
  destruct (before y x); [| reflexivity].
  rewrite perm_swap. now apply perm_skip.
Qed.

Lemma sort_by_perm (l : list A) : Permutation l (sort_by before l).
Proof.
  induction l as [|x l IH]; simpl; [reflexivity |].
  rewrite <- insert_by_perm. now apply perm_skip.
Qed.

Lemma insert_by_sorted (x : A) (l : list A) :
  StronglySorted le l -> StronglySorted le (insert_by before x l).
Proof.
  induction l as [|y l IH]; simpl; intro Hs.
  - repeat constructor.
  - apply StronglySorted_inv in Hs as [Hs Hy].
    destruct (before y x) eqn:E.
    + constructor; [now apply IH |].
      eapply Permutation_Forall; [apply insert_by_perm |].
      constructor; [now apply before_le | assumption].
    + constructor; [now constructor |].
      apply not_before_le in E.
      constructor; [assumption |].
      eapply Forall_impl; [| exact Hy]. intros z Hz. now apply le_trans with y.
Qed.

Lemma sort_by_sorted (l : list A) : StronglySorted le (sort_by before l).
Proof.
  induction l as [|x l IH]; simpl; [constructor | now apply insert_by_sorted].
Qed.

End SortBy.

Lemma Qlt_bool_true (x y : Q) : Qlt_bool x y = true -> x < y.
Proof.
  unfold Qlt_bool. intro H. apply negb_true_iff in H.
  apply Qnot_le_lt. intro Hle. apply Qle_bool_iff in Hle. congruence.
Qed.

Lemma Qlt_bool_false (x y : Q) : Qlt_bool x y = false -> y <= x.
Proof.
  unfold Qlt_bool. intro H. apply negb_false_iff in H. now apply Qle_bool_iff.
Qed.

(** [sort(key=..., reverse=True)] permutes the list and puts the keys in
    descending order. *)
Lemma sort_reverse_perm {A : Type} (key : A -> Q) (l : list A) :
  Permutation l (sort_reverse key l).
Proof. apply sort_by_perm. Qed.

Lemma sort_reverse_sorted {A : Type} (key : A -> Q) (l : list A) :
  StronglySorted (fun a b => key b <= key a) (sort_reverse key l).
Proof.
  apply sort_by_sorted.
  - intros y x H. apply Qlt_le_weak. now apply Qlt_bool_true.
  - intros y x H. now apply Qlt_bool_false.
  - intros x y z Hxy Hyz. now apply Qle_trans with (key y).
Qed.

(* ------------------------------------------------------------------ *)
(** ** Title ranking *)

(** C6, as stated, fails: the page-1 block "2023" (font size 20) is neither
    symbols-only, nor short, nor "copyright", yet its sort key is 0 and not
    its font size. *)
Lemma C6_counterexample :
  ~ (forall (b : block) (i : nat),
        spec_low_priority (PyStr.strip (text b)) = false ->
        sort_key (b, i) == get (font_size b) 0).
Proof.
  intro H. specialize (H Sample.year_2023 0%nat eq_refl).
  vm_compute in H. discriminate.
Qed.

(** C6 (amended): the sort key is 0 for the blocks whose stripped text is
    made of digits, non-word characters and whitespace only (so "2023" has
    key 0), or is shorter than 4 characters, or is "copyright" in any case;
    every other block has its font size (0 when absent) as key; and the
    ranking is a permutation of the page-1 entries in descending order of
    that key. *)
Theorem sort_key_ranking (b : block) (i : nat) (l : list (block * nat)) :
  sort_key (b, i) =
    (if ranked_last (PyStr.strip (text b)) then 0 else get (font_size b) 0)
  /\ sort_key (Sample.year_2023, i) = 0
  /\ Permutation l (sort_reverse sort_key l)
  /\ StronglySorted (fun p q => sort_key q <= sort_key p)
       (sort_reverse sort_key l).
Proof.
  repeat split.
  - unfold sort_key, ranked_last, Re.fullmatch, Pattern.no_letters; simpl fst.
    rewrite ReFacts.matches_plus_cls. reflexivity.
  - apply sort_reverse_perm.
  - apply sort_reverse_sorted.
Qed.

(* ------------------------------------------------------------------ *)
(** ** Document median font *)

Lemma doc_font_sizes_qualifying (blocks : list block) :
  map (fun b => get (font_size b) 0)
    (filter (fun b => Qlt_bool (6 # 1) (get (font_size b) 0)) blocks)
  = qualifying_sizes blocks.
Proof.
  induction blocks as [|b blocks IH]; [reflexivity |].
  cbn [filter qualifying_sizes].
  destruct (font_size b) as [size|] eqn:E; cbn [get].
  - destruct (Qlt_bool (6 # 1) size); cbn [map]; rewrite ?E, IH; reflexivity.
  - change (Qlt_bool (6 # 1) 0) with false. cbn iota. exact IH.
Qed.

Lemma split_at {A : Type} (d : A) (l : list A) (n : nat) :
  (n < List.length l)%nat ->
  exists lo hi, l = (lo ++ nth n l d :: hi)%list /\ List.length lo = n
                /\ List.length hi = (List.length l - n - 1)%nat.
Proof.
  intro Hn. destruct (nth_split l d Hn) as (lo & hi & E & Hlo).
  exists lo, hi. repeat split; auto.
  apply (f_equal (@List.length A)) in E.
  rewrite length_app in E; simpl in E. lia.
Qed.

(** The middle of a non-empty list: the element with as many elements before
    as after it, or the mean of the two such elements. *)
Lemma middle_spec (s : list Q) :
  s <> [] ->
  (exists lo x hi,
      s = (lo ++ x :: hi)%list /\ List.length lo = List.length hi
      /\ middle s == x)
  \/ (exists lo x y hi,
         s = (lo ++ x :: y :: hi)%list /\ List.length lo = List.length hi
         /\ middle s == (x + y) / (2 # 1)).
Proof.
  intro Hne. unfold middle.
  assert (Hlen : (0 < List.length s)%nat) by (destruct s; simpl; [now contradiction Hne | lia]).
  destruct (Nat.even (List.length s)) eqn:Ev.
  - right. apply Nat.even_spec in Ev as [k Hk].
    assert (Hk1 : (List.length s / 2 = k)%nat).
    { rewrite Hk. symmetry. apply (Nat.div_unique _ 2 k 0); lia. }
    rewrite Hk1.
    destruct (split_at 0 s (k - 1)) as (lo & hi & E & Hlo & Hhi); [lia |].
    destruct hi as [|y hi]; [simpl in Hhi; lia |].
    exists lo, (nth (k - 1) s 0), y, hi. repeat split.
    + exact E.
    + simpl in Hhi. lia.
    + assert (Ey : nth k s 0 = y).
      { rewrite E at 1. rewrite app_nth2 by lia.
        replace (k - List.length lo)%nat with 1%nat by lia. reflexivity. }
      rewrite Ey. reflexivity.
  - left. assert (Od : Nat.odd (List.length s) = true)
      by (rewrite <- Nat.negb_even, Ev; reflexivity).
    apply Nat.odd_spec in Od as [k Hk].
    assert (Hk1 : (List.length s / 2 = k)%nat).
    { rewrite Hk. symmetry. apply (Nat.div_unique _ 2 k 1); lia. }
    rewrite Hk1.
    destruct (split_at 0 s k) as (lo & hi & E & Hlo & Hhi); [lia |].
    exists lo, (nth k s 0), hi.
    split; [exact E | split; [lia | reflexivity]].
Qed.

Lemma sort_ascending_sorted (l : list Q) :
  StronglySorted Qle (sort_by (fun y x => Qlt_bool y x) l).
Proof.
  apply sort_by_sorted.
  - intros y x H. apply Qlt_le_weak. now apply Qlt_bool_true.
  - intros y x H. now apply Qlt_bool_false.
  - intros x y z. apply Qle_trans.
Qed.

Lemma np_median_is_median (l : list Q) : l <> [] -> is_median l (np_median l).
Proof.
  intro Hne. exists (sort_by (fun y x => Qlt_bool y x) l).
  split; [apply sort_by_perm |]. split; [apply sort_ascending_sorted |].
  apply middle_spec. intro E.
  apply Hne. apply Permutation_nil. rewrite <- E. symmetry. apply sort_by_perm.
Qed.



(* ------------------------------------------------------------------ *)
(** ** Sequential heading context *)



(* ------------------------------------------------------------------ *)
(** ** The outline structurer *)

Local Open Scope list_scope.

Lemma nth_error_alloc (h : store) (o : obj) :
  nth_error (h ++ [o]) (List.length h) = Some o.
Proof.
  rewrite nth_error_app2 by lia. now rewrite Nat.sub_diag.
Qed.

Lemma set_nth_last (h : store) (o o' : obj) :
  set_nth (List.length h) o' (h ++ [o]) = (h ++ [o'])%list.
Proof. induction h as [|x h IH]; simpl; [reflexivity | now rewrite IH]. Qed.

Lemma nth_error_old (h : store) (o : obj) (a : addr) (x : obj) :
  nth_error h a = Some x -> nth_error (h ++ [o]) a = Some x.
Proof.
  intro H. rewrite nth_error_app1; [exact H |].
  apply nth_error_Some. congruence.
Qed.

(** The run of the structurer on a store that holds the list of blocks at
    [a]: its outcome is a function of the blocks, and the store grows by at
    most the ranked list. *)
Lemma structure_final_output_run (h : store) (a : addr) (blocks : list block) :
  nth_error h a = Some (ListOfBlocks blocks) ->
  structure_final_output a h =
  (match find_title blocks with
   | Raise e => Raises e
   | Ok found =>
       match build_outline (snd found) (enumerate blocks) with
       | Raise e => Raises e
       | Ok o => Returns {| title := PyStr.strip (fst found); outline := o |}
       end
   end,
   store_after h blocks).
Proof.
  intro Ha.
  assert (Hread : forall o, read_blocks a (h ++ [o]) = (Returns blocks, (h ++ [o])%list)).
  { intro o. unfold read_blocks. now rewrite (nth_error_old _ _ _ _ Ha). }
  unfold structure_final_output, find_title, store_after, bindM.
  unfold read_blocks at 1. rewrite Ha.
  destruct (nonempty (filter on_page_1 blocks)).
  - unfold read_blocks at 1. rewrite Ha.
    fold (page1_pairs blocks). unfold alloc, read_pairs at 1.
    rewrite nth_error_alloc.
    destruct (nonempty (page1_pairs blocks)).
    + unfold sort_in_place. rewrite nth_error_alloc, set_nth_last.
      unfold read_pairs. rewrite nth_error_alloc. unfold lift at 1.
      destruct (title_of_ranked _) as [found|e]; [| reflexivity].
      rewrite Hread. unfold lift, ret.
      destruct (build_outline _ _); reflexivity.
    + unfold ret at 1. rewrite Hread. unfold lift, ret.
      destruct (build_outline _ _); reflexivity.
  - unfold ret at 1. unfold read_blocks. rewrite Ha. unfold lift, ret.
    destruct (build_outline _ _); reflexivity.
Qed.

(** The outline holds the kept blocks, in the order of the blocks. *)
Lemma build_outline_kept (idxs : list nat) (ibs : list (nat * block))
  (o : list entry) :
  build_outline idxs ibs = Ok o ->
  map entry_view o = map block_view (filter (kept idxs) ibs).
Proof.
  revert o; induction ibs as [|[i b] ibs IH]; intros o; simpl.
  - intro H; injection H as <-; reflexivity.
  - unfold kept at 1; simpl fst; simpl snd.
    destruct (existsb (Nat.eqb i) idxs); simpl; [apply IH |].
    destruct (heading_labeled b); [| apply IH].
    destruct (page_number b) as [p|] eqn:Ep; simpl; [| discriminate].
    destruct (build_outline idxs ibs) as [rest|]; simpl; [| discriminate].
    intro H; injection H as <-. simpl.
    rewrite (IH rest eq_refl). unfold entry_view, block_view; simpl.
    now rewrite Ep.
Qed.



Lemma option_eqb_refl {A : Type} (eqb : A -> A -> bool) (o : option A) :
  (forall a, eqb a a = true) -> option_eqb eqb o o = true.
Proof. intro H; destruct o; simpl; auto. Qed.

Lemma bbox_eqb_refl (bb : bbox_t) : bbox_eqb bb bb = true.
Proof. unfold bbox_eqb. now rewrite !Qeq_bool_refl. Qed.

Lemma pair_eqb_refl (p : block * nat) : pair_eqb p p = true.
Proof.
  unfold pair_eqb, block_eqb.
  rewrite String.eqb_refl, Nat.eqb_refl.
  rewrite !option_eqb_refl;
    auto using Qeq_bool_refl, Z.eqb_refl, String.eqb_refl, Bool.eqb_reflx,
      bbox_eqb_refl.
Qed.

(** The title starts at the top of the ranking: [index] finds the first
    entry at position 0, and the merge runs over the entries after it. *)
Lemma title_of_ranked_cons (tb : block) (ti : nat) (rest : list (block * nat)) :
  title_of_ranked ((tb, ti) :: rest) =
  (merged <- merge_title tb rest [text tb] [ti] ;;
   Ok (String.concat " " (fst merged), snd merged)).
Proof.
  unfold title_of_ranked, index_of. now rewrite pair_eqb_refl.
Qed.





(* ------------------------------------------------------------------ *)
(** ** The end-to-end scenario *)

Lemma structure_run (blocks : list block) :
  structure blocks =
  match find_title blocks with
  | Raise e => Raises e
  | Ok found =>
      match build_outline (snd found) (enumerate blocks) with
      | Raise e => Raises e
      | Ok o => Returns {| title := PyStr.strip (fst found); outline := o |}
      end
  end.
Proof.
  unfold structure.
  now rewrite (structure_final_output_run [ListOfBlocks blocks] 0%nat blocks eq_refl).
Qed.

(** Font sizes 24 and 23 are exactly 1 apart: the second line is not
    merged, and the title is the first line alone. *)
Lemma scenario_title (l0 l1 l3 : option string) :
  find_title (Scenario.blocks l0 l1 l3) = Ok ("Project Plan", [0%nat]).
Proof.
  unfold find_title.
  change (nonempty (filter on_page_1 (Scenario.blocks l0 l1 l3))) with true.
  change (nonempty (page1_pairs (Scenario.blocks l0 l1 l3))) with true.
  cbv iota.
  assert (E : sort_reverse sort_key (page1_pairs (Scenario.blocks l0 l1 l3))
              = [(Scenario.project_plan l0, 0%nat);
                 (Scenario.a_report (23 # 1) l1, 1%nat)])
    by (vm_compute; reflexivity).
  rewrite E, title_of_ranked_cons. vm_compute. reflexivity.
Qed.

(** With font size 23.5 the second line is merged into the title. *)
Lemma close_scenario_title (l0 l1 l3 : option string) :
  find_title (Scenario.close_blocks l0 l1 l3)
  = Ok ("Project Plan A Report", [0%nat; 1%nat]).
Proof.
  unfold find_title.
  change (nonempty (filter on_page_1 (Scenario.close_blocks l0 l1 l3))) with true.
  change (nonempty (page1_pairs (Scenario.close_blocks l0 l1 l3))) with true.
  cbv iota.
  assert (E : sort_reverse sort_key (page1_pairs (Scenario.close_blocks l0 l1 l3))
              = [(Scenario.project_plan l0, 0%nat);
                 (Scenario.a_report (47 # 2) l1, 1%nat)])
    by (vm_compute; reflexivity).
  rewrite E, title_of_ranked_cons. vm_compute. reflexivity.
Qed.

Lemma scenario_outline (l0 l1 l3 : option string) :
  heading_labeled (Scenario.a_report (23 # 1) l1) = false ->
  heading_labeled (Scenario.body l3) = false ->
  build_outline [0%nat] (enumerate (Scenario.blocks l0 l1 l3))
  = Ok [Scenario.introduction_entry].
Proof.
  intros H1 H3. unfold Scenario.blocks, enumerate.
  cbn -[heading_labeled Scenario.a_report Scenario.body Scenario.introduction].
  rewrite H1, H3. reflexivity.
Qed.

Lemma close_scenario_outline (l0 l1 l3 : option string) :
  heading_labeled (Scenario.body l3) = false ->
  build_outline [0%nat; 1%nat] (enumerate (Scenario.close_blocks l0 l1 l3))
  = Ok [Scenario.introduction_entry].
Proof.
  intros H3. unfold Scenario.close_blocks, enumerate.
  cbn -[heading_labeled Scenario.a_report Scenario.body Scenario.introduction].
  rewrite H3. reflexivity.
Qed.

(** C1, as stated, fails: whatever final labels the first, second and fourth
    block carry, the structurer does not return the title "Project Plan A
    Report" for the four blocks of the scenario. *)
Lemma C1_counterexample :
  ~ exists l0 l1 l3 : option string,
      structure (Scenario.blocks l0 l1 l3)
      = Returns {| title := "Project Plan A Report";
                   outline := [Scenario.introduction_entry] |}.
Proof.
  intros (l0 & l1 & l3 & H).
  rewrite structure_run, scenario_title in H. cbn [fst snd] in H.
  destruct (build_outline _ _); [| discriminate].
  injection H as Ht _. vm_compute in Ht. discriminate.
Qed.

(** C1 (amended): for the four blocks of the scenario, with "1. Introduction"
    labeled H1 and neither "A Report" nor the body block labeled as a
    heading, the structurer returns the title "Project Plan" and the outline
    [H1 "1. Introduction" page 2]: the font sizes 24 and 23 differ by exactly
    1.0, which is not below 1.0, so the second line is not merged.  With the
    second line in font size 23.5 the two lines are merged and the title is
    "Project Plan A Report". *)
Theorem scenario_outcome (l0 l1 l3 : option string) :
  heading_labeled (Scenario.a_report (23 # 1) l1) = false ->
  heading_labeled (Scenario.body l3) = false ->
  structure (Scenario.blocks l0 l1 l3)
    = Returns {| title := "Project Plan";
                 outline := [Scenario.introduction_entry] |}
  /\ structure (Scenario.close_blocks l0 l1 l3)
    = Returns {| title := "Project Plan A Report";
                 outline := [Scenario.introduction_entry] |}.
Proof.
  intros H1 H3. split.
  - rewrite structure_run, scenario_title. cbn [fst snd].
    rewrite (scenario_outline l0 l1 l3 H1 H3). reflexivity.
  - rewrite structure_run, close_scenario_title. cbn [fst snd].
    rewrite (close_scenario_outline l0 l1 l3 H3). reflexivity.
Qed.

Lemma scenario_outcome_witness :
  structure (Scenario.blocks (Some "TITLE") (Some "TITLE") (Some "NONE"))
    = Returns {| title := "Project Plan";
                 outline := [Scenario.introduction_entry] |}
  /\ structure (Scenario.close_blocks (Some "TITLE") (Some "TITLE") (Some "NONE"))
    = Returns {| title := "Project Plan A Report";
                 outline := [Scenario.introduction_entry] |}.
Proof.
  apply (scenario_outcome (Some "TITLE") (Some "TITLE") (Some "NONE"));
    reflexivity.
Defined.

(* ================================================================== *)
(** * Further properties of the rule engine *)

Local Open Scope string_scope.

Lemma all_chars_any (s : string) : Re.all_chars (fun _ => true) s = true.
Proof. induction s; simpl; auto. Qed.

Lemma lang_star_any (s : string) : Re.lang (Re.Star Re.Any) s.
Proof.
  apply ReFacts.matches_lang. unfold Re.Any.
  rewrite ReFacts.matches_star_cls. apply all_chars_any.
Qed.

Lemma lang_star_cls (q : ascii -> bool) (s : string) :
  Re.all_chars q s = true -> Re.lang (Re.Star (Re.Cls q)) s.
Proof.
  intro H. apply ReFacts.matches_lang. now rewrite ReFacts.matches_star_cls.
Qed.

Lemma lang_plus_cls (q : ascii -> bool) (s : string) :
  s <> "" -> Re.all_chars q s = true -> Re.lang (Re.Plus (Re.Cls q)) s.
Proof.
  intros Hne H. apply ReFacts.matches_lang.
  rewrite ReFacts.matches_plus_cls, H. destruct s; [congruence | reflexivity].
Qed.

Lemma lang_chr_cons (c : ascii) (r : Re.regex) (s : string) :
  Re.lang r s -> Re.lang (Re.Cat (Re.Chr c) r) (String c s).
Proof.
  intro H. change (String c s) with (String c "" ++ s).
  constructor; [constructor; apply Ascii.eqb_refl | exact H].
Qed.

Lemma lstrip_all (p : ascii -> bool) (s : string) :
  Re.all_chars p s = true -> PyStr.lstrip_by p s = "".
Proof.
  induction s as [|c s IH]; simpl; [reflexivity |].
  intro H. apply andb_true_iff in H as [-> H]. now apply IH.
Qed.

(** A text of whitespace only strips to the empty text. *)
Lemma strip_blank (s : string) :
  Re.all_chars PyStr.is_space s = true -> PyStr.strip s = "".
Proof. intro H. unfold PyStr.strip. now rewrite lstrip_all. Qed.

(** X1: a block whose text is empty or whitespace only is labeled NONE
    before any other key is read: whatever keys the block lacks, nothing is
    raised. *)
Theorem blank_text_is_NONE (b : block) (pl : string) (m : Q) :
  Re.all_chars PyStr.is_space (text b) = true ->
  apply_advanced_rules b pl m = Ok "NONE".
Proof.
  intro H. apply apply_advanced_rules_excluded.
  now rewrite (strip_blank _ H).
Qed.

Lemma blank_text_is_NONE_witness :
  apply_advanced_rules (bare "   ") "TITLE" 0 = Ok "NONE".
Proof. apply (blank_text_is_NONE (bare "   ") "TITLE" 0). reflexivity. Defined.

Lemma toc_pattern_matches (p ws ds : string) (n : nat) :
  Re.all_chars PyStr.is_space ws = true ->
  Re.all_chars PyStr.is_digit ds = true -> ds <> "" ->
  toc_filter (p ++ replicate "." (3 + n) ++ ws ++ ds) = true.
Proof.
  intros Hws Hds Hne. unfold toc_filter, Re.search_at_end.
  apply ReFacts.matches_lang. constructor; [apply lang_star_any |].
  unfold Pattern.toc, Re.Seq. cbn [replicate Nat.add append].
  do 3 apply lang_chr_cons.
  constructor.
  - apply lang_star_cls. induction n as [|n IH]; simpl; [reflexivity | exact IH].
  - constructor; [now apply lang_star_cls |].
    rewrite <- (ReFacts.append_nil_r ds).
    constructor; [now apply lang_plus_cls | constructor].
Qed.

(** X2: a table-of-contents line -- any text, then three or more dots,
    optional whitespace and a page number at the end -- is labeled NONE for
    every first-pass label, and before any other key of the block is read. *)
Theorem toc_line_is_NONE (b : block) (pl : string) (m : Q)
  (p ws ds : string) (n : nat) :
  PyStr.strip (text b) = p ++ replicate "." (3 + n) ++ ws ++ ds ->
  Re.all_chars PyStr.is_space ws = true ->
  Re.all_chars PyStr.is_digit ds = true -> ds <> "" ->
  apply_advanced_rules b pl m = Ok "NONE".
Proof.
  intros Ht Hws Hds Hne. apply apply_advanced_rules_excluded.
  unfold negative_filters.
  destruct (PyStr.is_empty _); [reflexivity |].
  now rewrite Ht, toc_pattern_matches.
Qed.

Lemma toc_line_is_NONE_witness :
  apply_advanced_rules (bare "2.1 Scope of work .... 17") "H2" (11 # 1)
  = Ok "NONE".
Proof.
  apply (toc_line_is_NONE (bare "2.1 Scope of work .... 17") "H2" (11 # 1)
           "2.1 Scope of work " " " "17" 1).
  - reflexivity.
  - reflexivity.
  - reflexivity.
  - discriminate.
Defined.

(** X3: the heading score lies between -5 and 7 for every block, text and
    median font. *)
Theorem heading_score_bounds (b : block) (t : string) (m : Q) :
  (-5 <= heading_score b t m <= 7)%Z.
Proof.
  unfold heading_score.
  destruct (get (is_bold b) false);
    destruct (Qlt_bool (5 # 4) _); try destruct (Qlt_bool (23 # 20) _);
    destruct (Qlt_bool (_ * _) _);
    destruct (150 <? _)%nat;
    destruct (PyStr.endswith_any _ _); lia.
Qed.




Lemma Qlt_bool_intro (x y : Q) : (x < y)%Q -> Qlt_bool x y = true.
Proof.
  intro H. unfold Qlt_bool. apply negb_true_iff.
  destruct (Qle_bool y x) eqn:E; [| reflexivity].
  apply Qle_bool_iff in E. exfalso. exact (Qlt_not_le _ _ H E).
Qed.

Lemma Qlt_bool_weaken (a b x : Q) :
  (b <= a)%Q -> Qlt_bool a x = true -> Qlt_bool b x = true.
Proof.
  intros Hba H. apply Qlt_bool_intro.
  apply Qle_lt_trans with a; [exact Hba | now apply Qlt_bool_true].
Qed.

Lemma heading_score_cues (b : block) (t : string) (m : Q) :
  heading_score b t m =
  ((if cue_bold b then 2 else 0)
   + (if Qlt_bool (5 # 4) (relative_size b m) then 3
      else if cue_large b m then 2 else 0)
   + (if cue_space b then 2 else 0)
   + (if (150 <? String.length t)%nat then -3 else 0)
   + (if PyStr.endswith_any ["."; ":"; ";"]%char t then -2 else 0))%Z.
Proof. reflexivity. Qed.

(** A first-pass NONE is changed only when the score is at least 4. *)
Lemma promoted_score (b : block) (m : Q) (l : string) :
  apply_advanced_rules b "NONE" m = Ok l -> l <> "NONE" ->
  (4 <= heading_score b (PyStr.strip (text b)) m)%Z.
Proof.
  unfold apply_advanced_rules, decision.
  destruct (negative_filters b _ m) as [[|]|]; simpl;
    [intros H; injection H as <-; congruence | | discriminate].
  destruct (4 <=? _)%Z eqn:E; [intros _ _; now apply Z.leb_le |].
  intros H; injection H as <-; congruence.
Qed.

(** X5: a block with first-pass label NONE is promoted to a heading only
    when at least two of the three typographic cues hold: bold, font size
    above 1.15 times the median, and space before above 1.5 times the font
    size. *)
Theorem promotion_needs_two_cues (b : block) (m : Q) (l : string) :
  apply_advanced_rules b "NONE" m = Ok l -> l <> "NONE" ->
  (2 <= count_true [cue_bold b; cue_large b m; cue_space b])%nat.
Proof.
  intros H Hne. pose proof (promoted_score b m l H Hne) as Hs.
  rewrite heading_score_cues in Hs. unfold count_true.
  assert (Hl : Qlt_bool (5 # 4) (relative_size b m) = true ->
               cue_large b m = true).
  { apply Qlt_bool_weaken. discriminate. }
  destruct (cue_bold b), (cue_space b), (cue_large b m);
    simpl; try lia;
    destruct (Qlt_bool (5 # 4) (relative_size b m));
    try (specialize (Hl eq_refl); discriminate);
    destruct (150 <? _)%nat, (PyStr.endswith_any _ _); lia.
Qed.

Lemma promotion_needs_two_cues_witness :
  (2 <= count_true [cue_bold Sample.sub_numbered;
                    cue_large Sample.sub_numbered (11 # 1);
                    cue_space Sample.sub_numbered])%nat.
Proof.
  apply (promotion_needs_two_cues Sample.sub_numbered (11 # 1) "H2").
  - vm_compute. reflexivity.
  - discriminate.
Defined.









(** X8: when none of the three text filters fires, the header/footer filter
    is the next to run: a block without bounding box raises KeyError
    ('bbox'), and a block with a page height of 0 raises ZeroDivisionError,
    whatever the first-pass label. *)
Theorem geometry_errors (b : block) (pl : string) (m : Q) :
  PyStr.is_empty (PyStr.strip (text b)) = false ->
  toc_filter (PyStr.strip (text b)) = false ->
  trailing_number_filter (PyStr.strip (text b)) = false ->
  (bbox b = None -> apply_advanced_rules b pl m = Raise (KeyError "bbox"))
  /\ (bbox b <> None -> (get (page_height b) (792 # 1) == 0)%Q ->
      apply_advanced_rules b pl m = Raise ZeroDivisionError).
Proof.
  intros He Ht Hn.
  unfold apply_advanced_rules, negative_filters, header_footer_filter, truediv.
  rewrite He, Ht, Hn. split.
  - intros ->. reflexivity.
  - intros Hb Hz. destruct (bbox b); [| congruence].
    cbn [item bind]. now rewrite (Qeq_eq_bool _ _ Hz).
Qed.

Lemma geometry_errors_witness :
  apply_advanced_rules (bare "Overview") "H1" (11 # 1) = Raise (KeyError "bbox")
  /\ apply_advanced_rules on_flat_page "H1" (11 # 1) = Raise ZeroDivisionError.
Proof.
  split.
  - apply (proj1 (geometry_errors (bare "Overview") "H1" (11 # 1)
                    eq_refl eq_refl eq_refl)).
    reflexivity.
  - apply (proj2 (geometry_errors on_flat_page "H1" (11 # 1)
                    eq_refl eq_refl eq_refl)).
    + discriminate.
    + reflexivity.
Defined.



(* ================================================================== *)
(** * Further properties of the outline structurer *)

Local Open Scope list_scope.

Lemma in_combine_seq {A : Type} (l : list A) (k i : nat) (x : A) :
  In (i, x) (combine (seq k (List.length l)) l)
  <-> (k <= i)%nat /\ nth_error l (i - k) = Some x.
Proof.
  revert k; induction l as [|y l IH]; intro k; simpl.
  - split; [tauto | intros [_ H]]. destruct (i - k)%nat; discriminate.
  - rewrite IH. split.
    + intros [E|[Hk Hn]].
      * injection E as <- <-. rewrite Nat.sub_diag. auto.
      * split; [lia |]. replace (i - k)%nat with (S (i - S k)) by lia. exact Hn.
    + intros [Hk Hn]. destruct (Nat.eq_dec i k) as [->|Hne].
      * rewrite Nat.sub_diag in Hn. injection Hn as ->. now left.
      * right. split; [lia |].
        replace (i - k)%nat with (S (i - S k)) in Hn by lia. exact Hn.
Qed.

Lemma in_enumerate {A : Type} (l : list A) (i : nat) (x : A) :
  In (i, x) (enumerate l) <-> nth_error l i = Some x.
Proof.
  unfold enumerate. rewrite in_combine_seq, Nat.sub_0_r.
  split; [tauto | intro H; split; [lia | exact H]].
Qed.

(** The ranked entries are the page-1 blocks with their positions. *)
Lemma in_page1_pairs (blocks : list block) (b : block) (i : nat) :
  In (b, i) (page1_pairs blocks)
  <-> nth_error blocks i = Some b /\ on_page_1 b = true.
Proof.
  unfold page1_pairs. rewrite in_map_iff. split.
  - intros ([i' b'] & E & Hin). injection E as -> ->.
    apply filter_In in Hin as [Hin Hp]. now apply in_enumerate in Hin.
  - intros [Hn Hp]. exists (i, b). split; [reflexivity |].
    apply filter_In. split; [now apply in_enumerate | exact Hp].
Qed.

Lemma page1_pairs_nil (blocks : list block) :
  filter on_page_1 blocks = [] -> page1_pairs blocks = [].
Proof.
  intro H. destruct (page1_pairs blocks) as [|[b i] l] eqn:E; [reflexivity |].
  assert (Hin : In (b, i) (page1_pairs blocks)) by (rewrite E; now left).
  apply in_page1_pairs in Hin as [Hn Hp].
  assert (Hf : In b (filter on_page_1 blocks)).
  { apply filter_In. split; [now apply nth_error_In in Hn | exact Hp]. }
  rewrite H in Hf. contradiction.
Qed.

(** The merge loop takes a run of entries from the front of the list it is
    given, and nothing else. *)
Lemma merge_title_prefix (rest : list (block * nat)) :
  forall last parts idxs parts' idxs',
    merge_title last rest parts idxs = Ok (parts', idxs') ->
    exists k : nat,
      (k <= List.length rest)%nat
      /\ parts' = parts ++ map (fun p => text (fst p)) (firstn k rest)
      /\ idxs' = idxs ++ map snd (firstn k rest).
Proof.
  induction rest as [|[nb ni] rest IH]; intros last parts idxs parts' idxs';
    simpl.
  - intro H; injection H as <- <-. exists 0%nat. now rewrite !app_nil_r.
  - destruct (font_size nb); simpl; [| discriminate].
    destruct (font_size last); simpl; [| discriminate].
    destruct (bbox nb); simpl; [| discriminate].
    destruct (bbox last); simpl; [| discriminate].
    destruct (_ && _)%bool.
    + intro H. apply IH in H as (k & Hk & -> & ->).
      exists (S k). simpl. rewrite <- !app_assoc. simpl. repeat split. lia.
    + intro H; injection H as <- <-. exists 0%nat. simpl.
      rewrite !app_nil_r. repeat split. lia.
Qed.

Lemma find_title_cases (blocks : list block) (t : string) (idxs : list nat) :
  find_title blocks = Ok (t, idxs) ->
  (filter on_page_1 blocks = [] /\ t = "Untitled Document"%string /\ idxs = [])
  \/ (exists k : nat,
        (1 <= k <= List.length (page1_pairs blocks))%nat
        /\ idxs = map snd
                    (firstn k (sort_reverse sort_key (page1_pairs blocks)))
        /\ t = String.concat " "
                 (map (fun p => text (fst p))
                    (firstn k (sort_reverse sort_key (page1_pairs blocks))))).
Proof.
  unfold find_title.
  destruct (filter on_page_1 blocks) as [|b0 l0] eqn:Ef; simpl nonempty; cbv iota.
  - intro H; injection H as <- <-. now left.
  - pose proof (sort_reverse_perm sort_key (page1_pairs blocks)) as Hperm.
    destruct (page1_pairs blocks) as [|p0 ps] eqn:Ep.
    + exfalso. assert (Hin : In b0 (filter on_page_1 blocks))
        by (rewrite Ef; now left).
      apply filter_In in Hin as [Hin Hp].
      apply In_nth_error in Hin as [i Hi].
      assert (Hc : In (b0, i) (page1_pairs blocks))
        by (apply in_page1_pairs; auto).
      rewrite Ep in Hc. contradiction.
    + simpl nonempty. cbv iota. right.
      pose proof (Permutation_length Hperm) as Hlen.
      destruct (sort_reverse sort_key (p0 :: ps)) as [|[tb ti] rest] eqn:Er;
        [simpl in Hlen; discriminate |].
      rewrite title_of_ranked_cons in H.
      destruct (merge_title tb rest [text tb] [ti]) as [[parts' idxs']|] eqn:Em;
        simpl in H; [| discriminate].
      injection H as <- <-.
      apply merge_title_prefix in Em as (k & Hk & -> & ->).
      exists (S k). simpl in *. repeat split; lia.
Qed.

Lemma structure_returns_inv (blocks : list block) (out : output) :
  structure blocks = Returns out ->
  exists t idxs o,
    find_title blocks = Ok (t, idxs)
    /\ build_outline idxs (enumerate blocks) = Ok o
    /\ out = {| title := PyStr.strip t; outline := o |}.
Proof.
  rewrite structure_run.
  destruct (find_title blocks) as [[t idxs]|]; [| discriminate].
  cbn [fst snd].
  destruct (build_outline idxs (enumerate blocks)) as [o|] eqn:Eo;
    [| discriminate].
  intro H; injection H as <-. now exists t, idxs, o.
Qed.

Lemma ranked_run (blocks : list block) (out : output) :
  structure blocks = Returns out ->
  filter on_page_1 blocks <> [] ->
  exists k : nat,
    (1 <= k <= List.length (page1_pairs blocks))%nat
    /\ title out
       = PyStr.strip
           (String.concat " "
              (map (fun p => text (fst p))
                 (firstn k (sort_reverse sort_key (page1_pairs blocks)))))
    /\ map entry_view (outline out)
       = map block_view
           (filter
              (kept (map snd
                       (firstn k (sort_reverse sort_key (page1_pairs blocks)))))
              (enumerate blocks)).
Proof.
  intros H Hne.
  apply structure_returns_inv in H as (t & idxs & o & Ht & Ho & ->).
  apply find_title_cases in Ht as [(Hnil & _)|(k & Hk & -> & ->)];
    [contradiction |].
  exists k. cbn [title outline]. repeat split; try lia.
  now apply build_outline_kept.
Qed.

(** X10: when the document has blocks on page 1, the title is the stripped,
    space-joined text of the first k entries of the ranking (k at least 1),
    and the outline holds the heading-labeled blocks other than those k, in
    reading order. *)
Theorem title_is_ranked_run (blocks : list block) (out : output) :
  structure blocks = Returns out ->
  filter on_page_1 blocks <> [] ->
  exists k : nat,
    (1 <= k <= List.length (page1_pairs blocks))%nat
    /\ title out
       = PyStr.strip
           (String.concat " "
              (map (fun p => text (fst p))
                 (firstn k (sort_reverse sort_key (page1_pairs blocks)))))
    /\ map entry_view (outline out)
       = map block_view
           (filter
              (kept (map snd
                       (firstn k (sort_reverse sort_key (page1_pairs blocks)))))
              (enumerate blocks)).
Proof. apply ranked_run. Qed.

Lemma title_is_ranked_run_witness :
  exists k : nat,
    (1 <= k <= 2)%nat
    /\ "Project Plan A Report"%string
       = PyStr.strip
           (String.concat " "
              (map (fun p => text (fst p))
                 (firstn k
                    (sort_reverse sort_key
                       (page1_pairs
                          (Scenario.close_blocks None None None)))))).
Proof.
  destruct (title_is_ranked_run (Scenario.close_blocks None None None)
              {| title := "Project Plan A Report";
                 outline := [Scenario.introduction_entry] |})
    as (k & Hk & Ht & _).
  - vm_compute. reflexivity.
  - discriminate.
  - exists k. split; [exact Hk | exact Ht].
Defined.

Lemma first_max_none {A : Type} (key : A -> Q) (l : list A) :
  first_max key l = None -> l = [].
Proof.
  destruct l as [|x l]; [reflexivity |]. simpl.
  destruct (first_max key l); [destruct (Qlt_bool _ _) |]; discriminate.
Qed.

(** [first_max] finds the first of the elements with the greatest key. *)
Lemma first_max_split {A : Type} (key : A -> Q) (l : list A) (x : A) :
  first_max key l = Some x ->
  exists l1 l2,
    l = l1 ++ x :: l2
    /\ Forall (fun y => (key y < key x)%Q) l1
    /\ Forall (fun y => (key y <= key x)%Q) l2.
Proof.
  revert x; induction l as [|a l IH]; intro x; simpl; [discriminate |].
  destruct (first_max key l) as [y|] eqn:E.
  - destruct (IH y eq_refl) as (l1 & l2 & -> & H1 & H2).
    destruct (Qlt_bool (key a) (key y)) eqn:Elt; intro H; injection H as <-.
    + exists (a :: l1), l2. repeat split; auto.
      constructor; [now apply Qlt_bool_true | exact H1].
    + apply Qlt_bool_false in Elt.
      exists [], (l1 ++ y :: l2). repeat split; auto.
      apply Forall_app. split; [| constructor].
      * eapply Forall_impl; [| exact H1]. intros z Hz.
        apply Qle_trans with (key y); [now apply Qlt_le_weak | exact Elt].
      * exact Elt.
      * eapply Forall_impl; [| exact H2]. intros z Hz.
        now apply Qle_trans with (key y).
  - intro H; injection H as <-. apply first_max_none in E as ->.
    exists [], []. repeat split; constructor.
Qed.

Lemma hd_sort_reverse {A : Type} (key : A -> Q) (l : list A) :
  hd_error (sort_reverse key l) = first_max key l.
Proof.
  unfold sort_reverse. induction l as [|x l IH]; simpl; [reflexivity |].
  rewrite <- IH.
  destruct (sort_by _ l) as [|y s]; simpl; [reflexivity |].
  destruct (Qlt_bool (key x) (key y)); reflexivity.
Qed.

(** X11: the title starts with the text of the page-1 block that comes
    first in reading order among those with the greatest sort key: every
    page-1 block before it has a smaller key and none after it has a
    greater one. *)
Theorem title_starts_at_first_largest (blocks : list block) (out : output) :
  structure blocks = Returns out ->
  filter on_page_1 blocks <> [] ->
  exists (l1 l2 : list (block * nat)) (tb : block) (ti : nat) (more : string),
    page1_pairs blocks = l1 ++ (tb, ti) :: l2
    /\ Forall (fun p => (sort_key p < sort_key (tb, ti))%Q) l1
    /\ Forall (fun p => (sort_key p <= sort_key (tb, ti))%Q) l2
    /\ nth_error blocks ti = Some tb
    /\ title out = PyStr.strip (text tb ++ more)%string.
Proof.
  intros H Hne.
  destruct (ranked_run blocks out H Hne) as (k & Hk & Ht & _).
  pose proof (hd_sort_reverse sort_key (page1_pairs blocks)) as Hhd.
  destruct (sort_reverse sort_key (page1_pairs blocks)) as [|[tb ti] rest] eqn:Er.
  - pose proof (Permutation_length
                  (sort_reverse_perm sort_key (page1_pairs blocks))) as Hl.
    rewrite Er in Hl. simpl in Hl. lia.
  - simpl in Hhd. symmetry in Hhd.
    destruct (first_max_split _ _ _ Hhd) as (l1 & l2 & E & H1 & H2).
    assert (Hin : In (tb, ti) (page1_pairs blocks))
      by (rewrite E; apply in_elt).
    apply in_page1_pairs in Hin as [Hn _].
    destruct k as [|k]; [lia |]. simpl in Ht.
    exists l1, l2, tb, ti.
    destruct (map (fun p => text (fst p)) (firstn k rest)) as [|x xs].
    + exists ""%string. rewrite ReFacts.append_nil_r. auto.
    + eexists. repeat split; eauto.
Qed.

Lemma title_starts_at_first_largest_witness :
  exists (l1 l2 : list (block * nat)) (tb : block) (ti : nat) (more : string),
    page1_pairs [Sample.year_2023; Sample.june_2023; Sample.cover_title]
    = l1 ++ (tb, ti) :: l2
    /\ Forall (fun p => (sort_key p < sort_key (tb, ti))%Q) l1
    /\ Forall (fun p => (sort_key p <= sort_key (tb, ti))%Q) l2
    /\ nth_error [Sample.year_2023; Sample.june_2023; Sample.cover_title] ti
       = Some tb
    /\ "Project Plan"%string = PyStr.strip (text tb ++ more)%string.
Proof.
  apply (title_starts_at_first_largest
           [Sample.year_2023; Sample.june_2023; Sample.cover_title]
           {| title := "Project Plan"; outline := [] |}).
  - vm_compute. reflexivity.
  - discriminate.
Defined.

Lemma build_outline_returns (idxs : list nat) (ibs : list (nat * block)) :
  Forall (fun ib => heading_labeled (snd ib) = true ->
                    page_number (snd ib) <> None) ibs ->
  exists o, build_outline idxs ibs = Ok o.
Proof.
  induction 1 as [|[i b] ibs Hp _ [o IH]]; simpl; [eauto |].
  destruct (existsb (Nat.eqb i) idxs); [eauto |].
  cbn [snd] in Hp.
  destruct (heading_labeled b); [| eauto].
  destruct (page_number b); [| exfalso; now apply Hp].
  simpl. rewrite IH. simpl. eauto.
Qed.

Lemma kept_nil (ibs : list (nat * block)) :
  filter (kept []) ibs = filter (fun ib => heading_labeled (snd ib)) ibs.
Proof. apply filter_ext. intros [i b]. reflexivity. Qed.

(** X12: a document without any block on page 1 (the empty document
    included) gets the title "Untitled Document", and its outline holds
    every heading-labeled block, in reading order; this needs a page number
    on the heading-labeled blocks only. *)
Theorem untitled_without_page_1 (blocks : list block) :
  Forall (fun b => on_page_1 b = false) blocks ->
  Forall (fun b => heading_labeled b = true -> page_number b <> None) blocks ->
  exists out : output,
    structure blocks = Returns out
    /\ title out = "Untitled Document"%string
    /\ map entry_view (outline out)
       = map block_view
           (filter (fun ib => heading_labeled (snd ib)) (enumerate blocks)).
Proof.
  intros Hp Hn.
  assert (Ef : filter on_page_1 blocks = []).
  { clear Hn. induction Hp as [|b l Hb _ IH]; simpl; [reflexivity |].
    now rewrite Hb. }
  assert (Et : find_title blocks = Ok ("Untitled Document"%string, [])).
  { unfold find_title. now rewrite Ef. }
  destruct (build_outline_returns [] (enumerate blocks)) as [o Ho].
  { apply Forall_forall. intros [i b] Hin. apply in_enumerate in Hin.
    apply nth_error_In in Hin. rewrite Forall_forall in Hn. now apply Hn. }
  exists {| title := "Untitled Document"; outline := o |}.
  rewrite structure_run, Et. cbn [fst snd]. rewrite Ho.
  repeat split. cbn [outline].
  rewrite (build_outline_kept _ _ _ Ho). now rewrite kept_nil.
Qed.

Lemma untitled_without_page_1_witness :
  exists out : output,
    structure [Scenario.introduction; Scenario.body (Some "NONE")]
    = Returns out
    /\ title out = "Untitled Document"%string
    /\ map entry_view (outline out)
       = map block_view
           (filter (fun ib => heading_labeled (snd ib))
              (enumerate [Scenario.introduction; Scenario.body (Some "NONE")])).
Proof.
  apply (untitled_without_page_1
           [Scenario.introduction; Scenario.body (Some "NONE")]).
  - repeat constructor.
  - repeat constructor; discriminate.
Defined.

Lemma title_indices_on_page_1 (blocks : list block) (t : string)
  (idxs : list nat) (i : nat) :
  find_title blocks = Ok (t, idxs) -> In i idxs ->
  exists b, nth_error blocks i = Some b /\ on_page_1 b = true.
Proof.
  intros H Hin.
  apply find_title_cases in H as [(_ & _ & ->)|(k & _ & -> & _)];
    [contradiction |].
  apply in_map_iff in Hin as ([b i'] & E & Hin). simpl in E; subst i'.
  exists b. apply in_page1_pairs.
  eapply Permutation_in; [apply Permutation_sym, sort_reverse_perm |].
  rewrite <- (firstn_skipn k (sort_reverse sort_key (page1_pairs blocks))).
  apply in_or_app. now left.
Qed.

(** X13: only page-1 blocks can be taken into the title: every
    heading-labeled block on another page (or without page number) appears
    in the outline with its label, text and page. *)
Theorem headings_off_page_1_stay (blocks : list block) (out : output)
  (i : nat) (b : block) :
  structure blocks = Returns out ->
  nth_error blocks i = Some b ->
  on_page_1 b = false -> heading_labeled b = true ->
  In (block_view (i, b)) (map entry_view (outline out)).
Proof.
  intros H Hn Hp Hh.
  apply structure_returns_inv in H as (t & idxs & o & Ht & Ho & ->).
  cbn [outline]. rewrite (build_outline_kept _ _ _ Ho).
  apply in_map. apply filter_In. split; [now apply in_enumerate |].
  unfold kept. cbn [fst snd]. rewrite Hh, andb_true_r.
  apply negb_true_iff. destruct (existsb (Nat.eqb i) idxs) eqn:E; [| reflexivity].
  apply existsb_exists in E as (j & Hj & Eq). apply Nat.eqb_eq in Eq; subst j.
  destruct (title_indices_on_page_1 _ _ _ _ Ht Hj) as (b' & Hn' & Hp').
  congruence.
Qed.

Lemma headings_off_page_1_stay_witness :
  In (block_view (2%nat, Scenario.introduction))
    (map entry_view [Scenario.introduction_entry]).
Proof.
  apply (headings_off_page_1_stay
           (Scenario.close_blocks (Some "TITLE") (Some "H1") None)
           {| title := "Project Plan A Report";
              outline := [Scenario.introduction_entry] |}
           2%nat Scenario.introduction).
  - vm_compute. reflexivity.
  - reflexivity.
  - reflexivity.
  - reflexivity.
Defined.

Lemma outline_entry_source (blocks : list block) (out : output)
  (e : entry) :
  structure blocks = Returns out -> In e (outline out) ->
  PyStr.startswith "H" (entry_level e) = true
  /\ exists (i : nat) (b : block),
       nth_error blocks i = Some b
       /\ final_label b = Some (entry_level e)
       /\ text b = entry_text e
       /\ page_number b = Some (entry_page e).
Proof.
  intros H He.
  apply structure_returns_inv in H as (t & idxs & o & _ & Ho & ->).
  cbn [outline] in He.
  assert (Hv : In (entry_view e) (map block_view
                 (filter (kept idxs) (enumerate blocks)))).
  { rewrite <- (build_outline_kept _ _ _ Ho). now apply in_map. }
  apply in_map_iff in Hv as ([i b] & Ev & Hin).
  apply filter_In in Hin as [Hin Hk]. apply in_enumerate in Hin.
  unfold kept in Hk. apply andb_true_iff in Hk as [_ Hh]. cbn [snd] in Hh.
  unfold block_view, entry_view in Ev. cbn [snd] in Ev.
  injection Ev as El Et Ep. unfold heading_labeled in Hh.
  destruct (final_label b) as [label|] eqn:Ef; [| discriminate].
  apply andb_true_iff in Hh as [_ Hh]. simpl in El. subst label.
  split; [exact Hh |]. exists i, b. auto.
Qed.

(** X14: every entry of the outline stands for a block of the input: its
    level is that block's final label and starts with H, its text and page
    are the block's; a block labeled NONE or TITLE never gives an entry. *)
Theorem outline_entries_are_headings (blocks : list block) (out : output)
  (e : entry) :
  structure blocks = Returns out -> In e (outline out) ->
  PyStr.startswith "H" (entry_level e) = true
  /\ exists (i : nat) (b : block),
       nth_error blocks i = Some b
       /\ final_label b = Some (entry_level e)
       /\ text b = entry_text e
       /\ page_number b = Some (entry_page e).
Proof. apply outline_entry_source. Qed.

Lemma outline_entries_are_headings_witness :
  PyStr.startswith "H" (entry_level Scenario.introduction_entry) = true
  /\ exists (i : nat) (b : block),
       nth_error (Scenario.blocks None None None) i = Some b
       /\ final_label b = Some (entry_level Scenario.introduction_entry)
       /\ text b = entry_text Scenario.introduction_entry
       /\ page_number b = Some (entry_page Scenario.introduction_entry).
Proof.
  apply (outline_entries_are_headings (Scenario.blocks None None None)
           {| title := "Project Plan";
              outline := [Scenario.introduction_entry] |}).
  - vm_compute. reflexivity.
  - left. reflexivity.
Defined.

Lemma lstrip_first (p : ascii -> bool) (s : string) :
  match PyStr.lstrip_by p s with
  | EmptyString => True
  | String c _ => p c = false
  end.
Proof.
  induction s as [|c s IH]; simpl; [exact I |].
  destruct (p c) eqn:E; [exact IH | exact E].
Qed.

Lemma rstrip_last (p : ascii -> bool) (s : string) :
  match PyStr.last_char (PyStr.rstrip_by p s) with
  | Some d => p d = false
  | None => PyStr.rstrip_by p s = EmptyString
  end.
Proof.
  induction s as [|c s IH]; simpl; [reflexivity |].
  destruct (PyStr.rstrip_by p s) as [|c' r] eqn:Er.
  - simpl. rewrite andb_true_r. destruct (p c) eqn:E; simpl; [reflexivity | exact E].
  - simpl PyStr.is_empty. rewrite andb_false_r.
    change (PyStr.last_char (String c (String c' r)))
      with (PyStr.last_char (String c' r)).
    destruct (PyStr.last_char (String c' r)); [exact IH | discriminate].
Qed.

Lemma strip_trimmed (s : string) : trimmed (PyStr.strip s).
Proof.
  unfold PyStr.strip.
  pose proof (lstrip_first PyStr.is_space s) as Hf.
  destruct (PyStr.lstrip_by PyStr.is_space s) as [|c u]; [exact I |].
  pose proof (rstrip_last PyStr.is_space (String c u)) as Hl.
  simpl in Hl |- *. rewrite Hf in Hl |- *. simpl in Hl |- *.
  split; [exact Hf |].
  destruct (PyStr.rstrip_by PyStr.is_space u) as [|c' r].
  - exists c. auto.
  - destruct (PyStr.last_char (String c' r)) as [d|]; [eauto | discriminate].
Qed.

(** X15: the title that is returned never begins or ends with
    whitespace. *)
Theorem title_is_trimmed (blocks : list block) (out : output) :
  structure blocks = Returns out -> trimmed (title out).
Proof.
  intro H. apply structure_returns_inv in H as (t & idxs & o & _ & _ & ->).
  apply strip_trimmed.
Qed.

Lemma title_is_trimmed_witness :
  trimmed "Cover"%string.
Proof.
  apply (title_is_trimmed
           [Sample.plain "  Cover  " (24 # 1) 1 (300 # 1) (330 # 1)]
           {| title := "Cover"; outline := [] |}).
  vm_compute. reflexivity.
Defined.

(** X16: the merge loop reads [font_size] by subscript, unlike the sort
    key: when the block ranked second among the page-1 blocks has no font
    size, the structurer raises KeyError ('font_size'). *)
Theorem second_ranked_needs_font_size (blocks : list block)
  (p1 : block * nat) (nb : block) (ni : nat) (rest : list (block * nat)) :
  sort_reverse sort_key (page1_pairs blocks) = p1 :: (nb, ni) :: rest ->
  font_size nb = None ->
  structure blocks = Raises (KeyError "font_size").
Proof.
  intros Er Hf. rewrite structure_run. unfold find_title.
  assert (Hp : page1_pairs blocks <> []).
  { intro E. rewrite E in Er. discriminate. }
  destruct (filter on_page_1 blocks) eqn:Efl;
    [now apply page1_pairs_nil in Efl |].
  destruct (page1_pairs blocks) eqn:Ep; [congruence |].
  simpl nonempty. cbv iota. rewrite Er. destruct p1 as [tb ti].
  rewrite title_of_ranked_cons. simpl. rewrite Hf. reflexivity.
Qed.

Lemma second_ranked_needs_font_size_witness :
  structure [Sample.cover_title;
             {| text := "Prepared for the board"; font_size := None;
                is_bold := None; bbox := Some {| y0 := 340 # 1; y1 := 352 # 1 |};
                page_number := Some 1%Z; page_height := None;
                vertical_space_before := None; final_label := Some "NONE" |}]
  = Raises (KeyError "font_size").
Proof.
  eapply second_ranked_needs_font_size.
  - vm_compute. reflexivity.
  - reflexivity.
Defined.




(* ================================================================== *)
(** * Further properties of the per-block loop and of the pipeline *)

Lemma qualifying_sizes_above (blocks : list block) :
  Forall (fun s => (6 # 1 < s)%Q) (qualifying_sizes blocks).
Proof.
  induction blocks as [|b blocks IH]; simpl; [constructor |].
  destruct (font_size b) as [s|]; [| exact IH].
  destruct (Qlt_bool (6 # 1) s) eqn:E; [| exact IH].
  constructor; [now apply Qlt_bool_true | exact IH].
Qed.

(** X18: the document median font is always greater than 6, so the labeling
    loop divides by it: the guard for a median of 0 in the relative size is
    never taken there. *)
Theorem median_font_above_6 (blocks : list block) (b : block) :
  (6 # 1 < compute_median_font blocks)%Q
  /\ relative_size b (compute_median_font blocks)
     = (get (font_size b) 0 / compute_median_font blocks)%Q.
Proof.
  assert (H : (6 # 1 < compute_median_font blocks)%Q).
  { unfold compute_median_font. rewrite doc_font_sizes_qualifying.
    pose proof (qualifying_sizes_above blocks) as Ha.
    destruct (qualifying_sizes blocks) as [|x l] eqn:E; [reflexivity |].
    simpl nonempty. cbv iota.
    destruct (np_median_is_median (x :: l) ltac:(discriminate))
      as (s & Hperm & _ & Hm).
    assert (Hs : Forall (fun s => (6 # 1 < s)%Q) s)
      by (eapply Permutation_Forall; eauto).
    destruct Hm as [(lo & y & hi & -> & _ & ->)|(lo & y & z & hi & -> & _ & ->)].
    - apply Forall_elt in Hs. exact Hs.
    - pose proof (Forall_elt _ _ _ Hs) as Hy.
      apply Forall_app in Hs as [_ Hs].
      apply Forall_cons_iff in Hs as [_ Hs].
      apply Forall_cons_iff in Hs as [Hz _].
      cbv beta in Hy, Hz. apply Qlt_shift_div_l; [reflexivity | lra]. }
  split; [exact H |].
  unfold relative_size. rewrite Qlt_bool_intro; [reflexivity |].
  apply Qlt_trans with (6 # 1); [reflexivity | exact H].
Qed.

Lemma Forall2_combine_snd {A B C : Type} (R : B -> C -> Prop)
  (l1 : list A) (l2 : list B) (new : list C) :
  List.length l1 = List.length l2 ->
  Forall2 (fun ib c => R (snd ib) c) (combine l1 l2) new -> Forall2 R l2 new.
Proof.
  revert l1 new; induction l2 as [|b l2 IH]; intros [|a l1] new Hlen H;
    simpl in *; try discriminate; inversion H; subst; constructor; auto.
  eapply IH; [| eassumption]. lia.
Qed.

Lemma loop_shape (first_pass : block -> nat -> Q -> heading_info -> string)
  (m : Q) (ibs : list (nat * block)) :
  forall info acc info' acc',
    loop first_pass m (info, acc) ibs = Ok (info', acc') ->
    exists new,
      acc' = acc ++ new
      /\ Forall2 (fun ib b' => labeled_from m (snd ib) b') ibs new.
Proof.
  induction ibs as [|[i b] ibs IH]; intros info acc info' acc'; simpl.
  - intro H; injection H as <- <-. exists []. now rewrite app_nil_r.
  - destruct (apply_advanced_rules b (first_pass b i m info) m) as [fl|] eqn:E;
      simpl; [| discriminate].
    intro H. apply IH in H as (new & -> & Hnew).
    exists (set_final_label b fl :: new). rewrite <- app_assoc. split; [reflexivity |].
    constructor; [| exact Hnew]. now exists (first_pass b i m info), fl.
Qed.

Lemma labeled_blocks_shape
  (first_pass : block -> nat -> Q -> heading_info -> string)
  (blocks labeled : list block) (info : heading_info) :
  label_blocks first_pass blocks = Ok (info, labeled) ->
  Forall2 (labeled_from (compute_median_font blocks)) blocks labeled.
Proof.
  unfold label_blocks. intro H.
  apply loop_shape in H as (new & -> & H). simpl.
  unfold enumerate in H.
  eapply Forall2_combine_snd; [| exact H]. apply length_seq.
Qed.

(** X19: when the labeling loop returns, it has labeled every block, in
    order: the result has one block for each input block, equal to it but
    for the final label, which is the engine's answer for that block under
    the document median font. *)
Theorem loop_labels_every_block
  (first_pass : block -> nat -> Q -> heading_info -> string)
  (blocks labeled : list block) (info : heading_info) :
  label_blocks first_pass blocks = Ok (info, labeled) ->
  List.length labeled = List.length blocks
  /\ Forall2 (labeled_from (compute_median_font blocks)) blocks labeled.
Proof.
  intro H. apply labeled_blocks_shape in H.
  split; [symmetry; eapply Forall2_length; eauto | exact H].
Qed.

Lemma loop_labels_every_block_witness :
  List.length [set_final_label Sample.sub_numbered "H2";
               set_final_label Sample.toc_line "NONE"] = 2%nat
  /\ Forall2 (labeled_from
                (compute_median_font [Sample.sub_numbered; Sample.toc_line]))
       [Sample.sub_numbered; Sample.toc_line]
       [set_final_label Sample.sub_numbered "H2";
        set_final_label Sample.toc_line "NONE"].
Proof.
  apply (loop_labels_every_block (fun _ _ _ _ => "H2")
           [Sample.sub_numbered; Sample.toc_line]
           [set_final_label Sample.sub_numbered "H2";
            set_final_label Sample.toc_line "NONE"]
           {| info_index := 0; info_level := 2; info_font_size := 16 # 1 |}).
  vm_compute. reflexivity.
Defined.

Lemma context_ok_app (m : Q) (acc new : list block) (info : heading_info) :
  context_ok m acc info -> context_ok m (acc ++ new) info.
Proof.
  intros [H|(i & b & fl & Hn & H)]; [now left | right].
  exists i, b, fl. split; [| exact H].
  rewrite nth_error_app1; [exact Hn |]. apply nth_error_Some. congruence.
Qed.

Lemma context_ok_step (m : Q) (acc : list block) (info : heading_info)
  (b : block) (fl : string) :
  context_ok m acc info ->
  context_ok m (acc ++ [set_final_label b fl])
    (update_heading_info info (List.length acc) (set_final_label b fl) fl m).
Proof.
  intro Hok.
  assert (Hnew : nth_error (acc ++ [set_final_label b fl]) (List.length acc)
                 = Some (set_final_label b fl)).
  { rewrite nth_error_app2 by lia. now rewrite Nat.sub_diag. }
  unfold update_heading_info.
  destruct (PyStr.startswith "H" fl) eqn:Eh.
  - destruct (PyStr.int (PyStr.tail fl)) as [k|] eqn:Ek;
      [| now apply context_ok_app].
    right. exists (List.length acc), (set_final_label b fl), fl.
    repeat split; auto.
  - destruct (String.eqb_spec fl "TITLE") as [->|Hne];
      [| now apply context_ok_app].
    right. exists (List.length acc), (set_final_label b "TITLE"), "TITLE"%string.
    repeat split; auto.
Qed.

Lemma loop_context_ok
  (first_pass : block -> nat -> Q -> heading_info -> string) (m : Q)
  (bs : list block) :
  forall info acc info' acc',
    context_ok m acc info ->
    loop first_pass m (info, acc)
      (combine (seq (List.length acc) (List.length bs)) bs)
    = Ok (info', acc') ->
    context_ok m acc' info'.
Proof.
  induction bs as [|b bs IH]; intros info acc info' acc' Hok; simpl.
  - intro H; injection H as <- <-. exact Hok.
  - destruct (apply_advanced_rules b _ m) as [fl|]; simpl; [| discriminate].
    intro H.
    eapply (IH _ (acc ++ [set_final_label b fl]));
      [apply context_ok_step; exact Hok |].
    rewrite length_app. simpl. rewrite Nat.add_1_r. exact H.
Qed.

(** X20: when the labeling loop returns, the heading context it ends with
    is the initial one (index -1, level 0, the median font) or describes one
    of the labeled blocks: that block's index and font size (the median when
    it has none), with level 0 when its final label is TITLE and the number
    after the H when its final label is an H followed by an integer. *)
Theorem final_context_describes_a_block
  (first_pass : block -> nat -> Q -> heading_info -> string)
  (blocks labeled : list block) (info : heading_info) :
  label_blocks first_pass blocks = Ok (info, labeled) ->
  context_ok (compute_median_font blocks) labeled info.
Proof.
  unfold label_blocks, enumerate. intro H.
  eapply (loop_context_ok first_pass _ blocks _ []); [| exact H]. now left.
Qed.

Lemma final_context_describes_a_block_witness :
  context_ok (compute_median_font [Sample.sub_numbered; Sample.toc_line])
    [set_final_label Sample.sub_numbered "H2";
     set_final_label Sample.toc_line "NONE"]
    {| info_index := 0; info_level := 2; info_font_size := 16 # 1 |}.
Proof.
  apply (final_context_describes_a_block (fun _ _ _ _ => "H2")
           [Sample.sub_numbered; Sample.toc_line]).
  vm_compute. reflexivity.
Defined.

Lemma Forall2_nth_error_r {A B : Type} (R : A -> B -> Prop)
  (l : list A) (l' : list B) (i : nat) (y : B) :
  Forall2 R l l' -> nth_error l' i = Some y ->
  exists x, nth_error l i = Some x /\ R x y.
Proof.
  intro H; revert i; induction H as [|a b l l' Hab _ IH]; intros [|i] Hn;
    simpl in *; try discriminate.
  - injection Hn as <-. eauto.
  - now apply IH.
Qed.

(** X21: [predict_outline] produces nothing exactly for the document
    without blocks; in an output it produces, every outline entry is a block
    of the input -- same text and page -- whose level starts with H and is
    the label the rule engine returned for that block under the document
    median font. *)
Theorem predicted_entries_come_from_the_engine
  (first_pass : block -> nat -> Q -> heading_info -> string)
  (blocks : list block) :
  (predict_outline first_pass blocks = None <-> blocks = [])
  /\ forall (out : output) (e : entry),
       predict_outline first_pass blocks = Some (Returns out) ->
       In e (outline out) ->
       PyStr.startswith "H" (entry_level e) = true
       /\ exists (i : nat) (b : block) (pl : string),
            nth_error blocks i = Some b
            /\ text b = entry_text e
            /\ page_number b = Some (entry_page e)
            /\ apply_advanced_rules b pl (compute_median_font blocks)
               = Ok (entry_level e).
Proof.
  split.
  - unfold predict_outline. destruct blocks; simpl; split; congruence.
  - intros out e H He. unfold predict_outline in H.
    destruct (nonempty blocks); [| discriminate].
    injection H as H.
    destruct (label_blocks first_pass blocks) as [[info labeled]|] eqn:El;
      [| discriminate].
    destruct (outline_entry_source labeled out e H He)
      as (Hh & i & b' & Hn & Hf & Ht & Hp).
    split; [exact Hh |].
    apply labeled_blocks_shape in El.
    destruct (Forall2_nth_error_r _ _ _ _ _ El Hn)
      as (b & Hb & pl & l & Hl & ->).
    simpl in Hf, Ht, Hp. injection Hf as ->.
    exists i, b, pl. auto.
Qed.

Lemma predicted_entries_come_from_the_engine_witness :
  PyStr.startswith "H" (entry_level scope_entry) = true
  /\ exists (i : nat) (b : block) (pl : string),
       nth_error report i = Some b
       /\ text b = entry_text scope_entry
       /\ page_number b = Some (entry_page scope_entry)
       /\ apply_advanced_rules b pl (compute_median_font report)
          = Ok (entry_level scope_entry).
Proof.
  apply (proj2 (predicted_entries_come_from_the_engine cover_first_pass report)
           {| title := "Project Plan"; outline := [scope_entry] |}).
  - vm_compute. reflexivity.
  - left. reflexivity.
Defined.





(* ================================================================== *)
(** * Properties of the batch driver's file names *)

Local Open Scope string_scope.

Lemma endswith_split (suffix s : string) :
  Batch.endswith suffix s = true -> exists stem, s = stem ++ suffix.
Proof.
  induction s as [|c s IH]; cbn [Batch.endswith].
  - rewrite orb_false_r. intro H. apply String.eqb_eq in H. now exists "".
  - intro H. apply orb_true_iff in H as [H|H].
    + apply String.eqb_eq in H. now exists "".
    + destruct (IH H) as [stem ->]. now exists (String c stem).
Qed.

Lemma lower_app_inv (s a b : string) :
  PyStr.lower s = a ++ b ->
  exists s1 s2, s = s1 ++ s2 /\ PyStr.lower s1 = a /\ PyStr.lower s2 = b.
Proof.
  revert s; induction a as [|x a IH]; intros s H; simpl in H.
  - now exists "", s.
  - destruct s as [|c s]; simpl in H; [discriminate |].
    injection H as Hc H. destruct (IH s H) as (s1 & s2 & -> & <- & <-).
    exists (String c s1), s2. simpl. now rewrite Hc.
Qed.

Lemma to_lower_dot (c : ascii) : PyStr.to_lower c = "."%char -> c = "."%char.
Proof.
  destruct c as [[] [] [] [] [] [] [] []]; vm_compute; intro H;
    first [reflexivity | discriminate H].
Qed.

Lemma rfind_absent (c : ascii) (s : string) :
  Re.all_chars (fun x => negb (Ascii.eqb x c)) s = true ->
  Batch.rfind c s = (-1)%Z.
Proof.
  induction s as [|x s IH]; simpl; [reflexivity |].
  intro H. apply andb_true_iff in H as [Hx Hs]. rewrite (IH Hs). simpl.
  apply negb_true_iff in Hx. now rewrite Hx.
Qed.

Lemma rfind_app (c : ascii) (s u : string) :
  (0 <= Batch.rfind c u)%Z ->
  Batch.rfind c (s ++ u) = (Z.of_nat (String.length s) + Batch.rfind c u)%Z.
Proof.
  intro Hu. induction s as [|x s IH]; [simpl; lia |].
  cbn [append Batch.rfind String.length]. rewrite IH.
  destruct (0 <=? _)%Z eqn:E; [lia | apply Z.leb_gt in E; lia].
Qed.

Lemma substring_app_l (a b : string) :
  substring 0 (String.length a) (a ++ b) = a.
Proof. induction a as [|c a IH]; simpl; [now destruct b | now rewrite IH]. Qed.

Lemma all_chars_app (p : ascii -> bool) (a b : string) :
  Re.all_chars p (a ++ b) = Re.all_chars p a && Re.all_chars p b.
Proof.
  induction a as [|c a IH]; simpl; [reflexivity |].
  now rewrite IH, andb_assoc.
Qed.

(** X23: for a listed file name that passes the .pdf test (in any case) and
    holds no slash, the output name is the name with its four-character
    extension replaced by ".json" -- except when only dots precede the
    extension (as in ".pdf"), where ".json" is appended to the whole
    name. *)
Theorem output_name_of_pdf (f : string) :
  Batch.is_pdf f = true ->
  Re.all_chars (fun x => negb (Ascii.eqb x "/")) f = true ->
  exists stem ext : string,
    f = stem ++ ext
    /\ PyStr.lower ext = ".pdf"
    /\ Batch.output_json_filename f
       = (if Re.all_chars (Ascii.eqb ".") stem then f else stem) ++ ".json".
Proof.
  intros Hpdf Hslash. unfold Batch.is_pdf in Hpdf.
  apply endswith_split in Hpdf as [stem' Hl].
  apply lower_app_inv in Hl as (stem & ext & -> & _ & Hext).
  exists stem, ext. split; [reflexivity |]. split; [exact Hext |].
  destruct ext as [|c1 [|c2 [|c3 [|c4 [|c5 ext]]]]]; try discriminate.
  simpl in Hext. injection Hext as H1 H2 H3 H4.
  apply to_lower_dot in H1; subst c1.
  assert (Hnd : forall c x, PyStr.to_lower c = x -> x <> "."%char ->
                            Ascii.eqb c "." = false).
  { intros c x Hc Hx. apply Ascii.eqb_neq. intros ->. now apply Hx. }
  assert (Hdot : Batch.rfind "." (String "." (String c2 (String c3 (String c4 ""))))
                 = 0%Z).
  { cbn [Batch.rfind].
    rewrite (Hnd c4 _ H4), (Hnd c3 _ H3), (Hnd c2 _ H2) by discriminate.
    reflexivity. }
  unfold Batch.output_json_filename, Batch.splitext.
  rewrite (rfind_absent "/" _ Hslash).
  rewrite rfind_app by (rewrite Hdot; lia). rewrite Hdot, Z.add_0_r.
  replace (-1 <? Z.of_nat (String.length stem))%Z with true
    by (symmetry; apply Z.ltb_lt; lia).
  replace (Z.to_nat (-1 + 1)) with 0%nat by reflexivity.
  replace (Z.to_nat (Z.of_nat (String.length stem) - -1 - 1))
    with (String.length stem) by lia.
  rewrite Nat2Z.id, substring_app_l.
  destruct (Re.all_chars (Ascii.eqb ".") stem); reflexivity.
Qed.

Lemma output_name_of_pdf_witness :
  exists stem ext : string,
    "Annual.Report.PDF" = stem ++ ext
    /\ PyStr.lower ext = ".pdf"
    /\ Batch.output_json_filename "Annual.Report.PDF"
       = (if Re.all_chars (Ascii.eqb ".") stem
          then "Annual.Report.PDF" else stem) ++ ".json".
Proof.
  apply (output_name_of_pdf "Annual.Report.PDF"); reflexivity.
Defined.

(* ================================================================== *)
(** * The exceptions of the pipeline *)

Local Open Scope list_scope.








(* ================================================================== *)
(** * The trailing-number and table-header filters *)

Local Open Scope string_scope.

Lemma trailing_number_matches (p ws ds : string) :
  ws <> "" -> Re.all_chars PyStr.is_space ws = true ->
  ds <> "" -> Re.all_chars PyStr.is_digit ds = true ->
  Re.search_at_end Pattern.trailing_number (p ++ ws ++ ds) = true.
Proof.
  intros Hw Hws Hd Hds. unfold Re.search_at_end.
  apply ReFacts.matches_lang. constructor; [apply lang_star_any |].
  unfold Pattern.trailing_number, Re.Seq.
  constructor; [now apply lang_plus_cls |].
  rewrite <- (ReFacts.append_nil_r ds).
  constructor; [now apply lang_plus_cls | constructor].
Qed.

(** X25: a text of more than two words that ends in whitespace and a number
    is labeled NONE for every first-pass label and before any other key is
    read -- unless it starts like a numbered heading (digits, a dot,
    whitespace). *)
Theorem trailing_number_is_NONE (b : block) (pl : string) (m : Q)
  (p ws ds : string) :
  PyStr.strip (text b) = p ++ ws ++ ds ->
  ws <> "" -> Re.all_chars PyStr.is_space ws = true ->
  ds <> "" -> Re.all_chars PyStr.is_digit ds = true ->
  (2 < List.length (PyStr.split (PyStr.strip (text b))))%nat ->
  Re.match_ Pattern.numbered (PyStr.strip (text b)) = false ->
  apply_advanced_rules b pl m = Ok "NONE".
Proof.
  intros Ht Hw Hws Hd Hds Hn Hnum. apply apply_advanced_rules_excluded.
  unfold negative_filters.
  destruct (PyStr.is_empty _); [reflexivity |].
  destruct (toc_filter _); [reflexivity |].
  unfold trailing_number_filter. rewrite Hnum.
  apply Nat.ltb_lt in Hn. rewrite Hn.
  rewrite Ht, trailing_number_matches by assumption. reflexivity.
Qed.

Lemma trailing_number_is_NONE_witness :
  apply_advanced_rules (bare "Plans for 2024") "H1" (11 # 1) = Ok "NONE".
Proof.
  apply (trailing_number_is_NONE (bare "Plans for 2024") "H1" (11 # 1)
           "Plans for" " " "2024").
  - reflexivity.
  - discriminate.
  - reflexivity.
  - discriminate.
  - reflexivity.
  - vm_compute. lia.
  - reflexivity.
Defined.


